(** * Nightscout daily report: note grammar, CGM correlation, statistics

    A shallow embedding of the report pipeline of the repository's two
    implementations,

    - [app.py]                ([DataProcessor.parse_notes],
                               [DataProcessor.process_report_data]) and
    - [nightscout_web_app.py] ([parse_notes], [prepare_report_data]),

    followed by the properties the specification states about them.

    Conventions of the embedding.
    - A Python [str] is a [string] holding its UTF-8 encoding; comparing two
      such strings byte by byte is comparing them code point by code point.
    - A swallowed or caught exception is an [option]: [None] is the raise.
    - What the Python runtime supplies ([float], float arithmetic and
      formatting, [round], [datetime.fromisoformat]) is the interface
      [Runtime]; the general theorems hold for every instance of it, the
      closed examples are computed in the instance [Py] built on IEEE
      binary64 numbers. *)

From Stdlib Require Import PrimFloat.
From Stdlib Require SpecFloat FloatOps FloatAxioms.
From Stdlib Require Import ZArith List String Ascii Bool Lia.
From Stdlib Require Import Sorted Permutation.
From Stdlib Require Import DecimalString.
Import ListNotations.

Local Open Scope string_scope.
Local Open Scope Z_scope.

(** ** Python's [str] methods used by the pipeline *)

Module PyStr.

(** A string from its byte values. *)
Definition bytes (l : list nat) : string :=
  string_of_list_ascii (map ascii_of_nat l).

(** ["\n"]. *)
Definition nl : string := bytes [10%nat].

(** [c.isspace()] for a one-byte character: TAB..CR, FS..US and SPACE. *)
Definition is_ascii_space (c : ascii) : bool :=
  let n := nat_of_ascii c in
  ((9 <=? n) && (n <=? 13) || (28 <=? n) && (n <=? 32))%nat.

(** The white-space characters of [str.isspace] above U+007F, in UTF-8:
    U+0085, U+00A0, U+1680, U+2000..U+200A, U+2028, U+2029, U+202F, U+205F
    and U+3000. *)
Definition wide_spaces : list string :=
  [ bytes [194; 133]; bytes [194; 160]; bytes [225; 154; 128];
    bytes [226; 128; 128]; bytes [226; 128; 129]; bytes [226; 128; 130];
    bytes [226; 128; 131]; bytes [226; 128; 132]; bytes [226; 128; 133];
    bytes [226; 128; 134]; bytes [226; 128; 135]; bytes [226; 128; 136];
    bytes [226; 128; 137]; bytes [226; 128; 138]; bytes [226; 128; 168];
    bytes [226; 128; 169]; bytes [226; 128; 175]; bytes [226; 129; 159];
    bytes [227; 128; 128] ]%nat.

(** Number of bytes of the white-space character [s] starts with; [0] when
    [s] does not start with one. *)
Definition space_width (s : string) : nat :=
  match s with
  | EmptyString => 0%nat
  | String c _ =>
      if is_ascii_space c then 1%nat
      else match find (fun w => prefix w s) wide_spaces with
           | Some w => String.length w
           | None => 0%nat
           end
  end.

(** Marks every byte of [s] with whether it belongs to a white-space
    character; [skip] counts the bytes still owed to the current one. *)
Fixpoint mark_spaces (skip : nat) (s : string) : list (ascii * bool) :=
  match s with
  | EmptyString => []
  | String c s' =>
      match skip with
      | S k => (c, true) :: mark_spaces k s'
      | O =>
          match space_width s with
          | O => (c, false) :: mark_spaces 0 s'
          | S k => (c, true) :: mark_spaces k s'
          end
      end
  end.

Fixpoint drop_spaces (l : list (ascii * bool)) : list (ascii * bool) :=
  match l with
  | (_, true) :: l' => drop_spaces l'
  | _ => l
  end.

Definition unmark (l : list (ascii * bool)) : string :=
  string_of_list_ascii (map fst l).

(** [s.strip()]. *)
Definition strip (s : string) : string :=
  unmark (rev (drop_spaces (rev (drop_spaces (mark_spaces 0 s))))).

(** [s.split()] on marked bytes: [cur] is the token being read, reversed. *)
Fixpoint split_marked (cur : list ascii) (l : list (ascii * bool)) : list string :=
  match l with
  | [] =>
      match cur with
      | [] => []
      | _ => [string_of_list_ascii (rev cur)]
      end
  | (c, false) :: l' => split_marked (c :: cur) l'
  | (_, true) :: l' =>
      match cur with
      | [] => split_marked [] l'
      | _ => string_of_list_ascii (rev cur) :: split_marked [] l'
      end
  end.

(** [s.split()]: the maximal runs of characters that are not white space. *)
Definition split (s : string) : list string :=
  split_marked [] (mark_spaces 0 s).

(** [s.split(sep)] for a one-byte separator; [cur] is reversed. *)
Fixpoint split_on_from (sep : ascii) (cur : list ascii) (s : string) : list string :=
  match s with
  | EmptyString => [string_of_list_ascii (rev cur)]
  | String c s' =>
      if Ascii.eqb c sep
      then string_of_list_ascii (rev cur) :: split_on_from sep [] s'
      else split_on_from sep (c :: cur) s'
  end.

(** [s.split('\n')]. *)
Definition split_lines (s : string) : list string :=
  split_on_from (ascii_of_nat 10) [] s.

(** [s.startswith(p)]. *)
Definition startswith (s p : string) : bool := prefix p s.

(** [c.upper()] for one byte. *)
Definition upper_ascii (c : ascii) : ascii :=
  let n := nat_of_ascii c in
  if ((97 <=? n) && (n <=? 122))%nat then ascii_of_nat (n - 32) else c.

(** [s.upper()] on the letters [a]..[z]; other characters are kept. The
    pipeline only compares the result with ["B"], ["N"] and ["F"], which are
    the upper case of no character outside [a]..[z]. *)
Fixpoint upper (s : string) : string :=
  match s with
  | EmptyString => EmptyString
  | String c s' => String (upper_ascii c) (upper s')
  end.

(** [s.replace(old, new)] for a non-empty [old]: occurrences are replaced
    from left to right without overlap; [skip] counts the bytes of the
    occurrence just replaced that are still to be dropped. *)
Fixpoint replace_from (old new : string) (skip : nat) (s : string) : string :=
  match s with
  | EmptyString => EmptyString
  | String c s' =>
      match skip with
      | S k => replace_from old new k s'
      | O =>
          if prefix old s
          then new ++ replace_from old new (String.length old - 1) s'
          else String c (replace_from old new 0 s')
      end
  end.

Definition replace (s old new : string) : string := replace_from old new 0 s.

(** [sub in s]. *)
Definition contains (sub s : string) : bool :=
  match index 0 sub s with
  | Some _ => true
  | None => false
  end.

(** [s[-1]] when the last character is a one-byte character, and the last
    byte of the last character otherwise; [None] is the [IndexError] of the
    empty string. *)
Fixpoint last_char (s : string) : option ascii :=
  match s with
  | EmptyString => None
  | String c EmptyString => Some c
  | String _ s' => last_char s'
  end.

(** [s[:-1]] when the last character is a one-byte character. *)
Fixpoint drop_last (s : string) : string :=
  match s with
  | EmptyString => EmptyString
  | String _ EmptyString => EmptyString
  | String c s' => String c (drop_last s')
  end.

(** [sep.join(l)]. *)
Definition join (sep : string) (l : list string) : string := concat sep l.

(** [bool(s)]. *)
Definition nonempty (s : string) : bool :=
  match s with
  | EmptyString => false
  | _ => true
  end.

(** [str(n)] for an [int]. *)
Definition str_of_int (n : Z) : string :=
  NilZero.string_of_int (Z.to_int n).

End PyStr.

Import PyStr.

(** ** The Python runtime the pipeline relies on *)

(** A [datetime]: the instant it denotes, in microseconds since the epoch,
    and whether it is aware, that is, carries a UTC offset. A naive
    [datetime] is read in the zone of the host, which is taken to be UTC. *)
Record datetime := {
  instant : Z;
  aware : bool
}.

(** Numbers and instants as the interpreter and its libraries supply them.
    - [float_of_str s] is [float(s)], [None] being its [ValueError];
    - [float_of_int n] is the [float] an [int] turns into in mixed arithmetic
      and comparisons;
    - [fadd], [fsub], [fdiv] and [fabs] are [+], [-], [/] and [abs] on
      [float]s; [feqb], [fltb] and [fleb] are [==], [<] and [<=];
    - [int_div a b] is [a / b] on two [int]s;
    - [is_finite x] is [math.isfinite(x)]; [round_int x] is [round(x)] on a
      finite [x] (on an infinity or a NaN [round] raises), [round_to n x] is
      [round(x, n)] and [format_f n x] is [x] formatted with [.nf];
    - [fromisoformat s] is [datetime.fromisoformat(s)], [None] being its
      [ValueError];
    - [utcoffset_JST t] is the offset from UTC, in microseconds, that the
      zone [pytz.timezone('Asia/Tokyo')] has at the instant [t]. *)
Class Runtime := {
  float : Type;
  float_of_str : string -> option float;
  float_of_int : Z -> float;
  fadd : float -> float -> float;
  fsub : float -> float -> float;
  fdiv : float -> float -> float;
  fabs : float -> float;
  feqb : float -> float -> bool;
  fltb : float -> float -> bool;
  fleb : float -> float -> bool;
  int_div : Z -> Z -> float;
  is_finite : float -> bool;
  round_int : float -> Z;
  round_to : nat -> float -> float;
  format_f : nat -> float -> string;
  fromisoformat : string -> option datetime;
  utcoffset_JST : Z -> Z
}.

(** ** Data model and helpers shared by the two implementations *)

Section Common.

Context {RT : Runtime}.

(** [bool(x)] for a [float]: [x != 0]. *)
Definition truthy (x : float) : bool := negb (feqb x (float_of_int 0)).

(** [bool(x)] for an optional [float] ([None] is falsy). *)
Definition truthy_opt (x : option float) : bool :=
  match x with
  | Some v => truthy v
  | None => false
  end.

(** [d.get(k, '')] on a key that holds text. *)
Definition get_str (v : option string) : string :=
  match v with
  | Some s => s
  | None => ""
  end.

(** A glucose reading of the [entries] feed. *)
Record Entry := {
  dateString : string;
  sgv : option Z;
  direction : option string;
  delta : option float
}.

(** A record of the [treatments] feed; [None] is a missing key. *)
Record Treatment := {
  created_at : option string;
  notes : option string;
  carbs : option string;
  insulin : option string;
  glucose : option string
}.

(** A table cell that holds a number or a text. *)
Inductive cell :=
| Num (x : float)
| Txt (s : string).

(** [x or "-"] for an optional number. *)
Definition num_or_dash (x : option float) : cell :=
  match x with
  | Some v => if truthy v then Num v else Txt "-"
  | None => Txt "-"
  end.

(** [s or "-"] for a text. *)
Definition str_or_dash (s : string) : string :=
  if nonempty s then s else "-".

(** One entry of [table_data]. *)
Record Row := {
  row_time : string;
  row_bg : string;
  row_cir : cell;
  row_carbs : string;
  row_predicted : cell;
  row_actual : string;
  row_type : string;
  row_food : string
}.

(** The report both implementations return. *)
Record Report := {
  chart_times : list string;
  chart_bgs : list Z;
  table_data : list Row;
  avg_bg : Z;
  total_insulin : float;
  basal_insulin : float;
  total_carbs : float;
  tcir : string
}.

(** [datetime.fromisoformat(s.replace('Z', '+00:00'))]. *)
Definition parse_time (s : string) : option datetime :=
  fromisoformat (replace s "Z" "+00:00").

(** The first and the last instant a [datetime] can hold:
    0001-01-01T00:00:00 and 9999-12-31T23:59:59.999999. *)
Definition min_instant : Z := -62135596800000000.
Definition max_instant : Z := 253402300799999999.

Definition in_calendar (t : Z) : bool :=
  (min_instant <=? t) && (t <=? max_instant).

(** [dt.astimezone(JST)] for a [dt] at the instant [t]: the time the clocks
    show in Tokyo, in microseconds since the epoch. [None] is the
    [OverflowError] of a [dt] whose time in UTC, or whose time in Tokyo, is
    outside the calendar. *)
Definition astimezone_JST (t : Z) : option Z :=
  if in_calendar t && in_calendar (t + utcoffset_JST t)
  then Some (t + utcoffset_JST t)
  else None.

(** The two statements that open a row and an item of the chart,
    [dt = datetime.fromisoformat(s.replace('Z', '+00:00'))] and
    [dt.astimezone(JST)]: [dt] when neither raises. *)
Definition moment_of (s : string) : option datetime :=
  match parse_time s with
  | Some dt =>
      match astimezone_JST (instant dt) with
      | Some _ => Some dt
      | None => None
      end
  | None => None
  end.

(** The instant of [moment_of]. *)
Definition instant_of (s : string) : option Z :=
  option_map instant (moment_of s).

(** [td.total_seconds()] for a [timedelta] of [us] microseconds: the
    quotient of two [int]s. *)
Definition total_seconds (us : Z) : float := int_div us 1000000.

(** [dt.timestamp()]. For an aware [dt] it is
    [(dt - epoch).total_seconds()]; for a naive one it is the whole seconds
    plus [dt.microsecond / 1e6]. *)
Definition timestamp (dt : datetime) : float :=
  if aware dt then total_seconds (instant dt)
  else fadd (float_of_int (instant dt / 1000000))
            (fdiv (float_of_int (instant dt mod 1000000))
                  (float_of_int 1000000)).

(** [round(x)] on a [float]: [None] is the [OverflowError] of an infinity
    and the [ValueError] of a NaN. *)
Definition round_float (x : float) : option Z :=
  if is_finite x then Some (round_int x) else None.

Definition two_digits (n : Z) : string :=
  if n <? 10 then "0" ++ str_of_int n else str_of_int n.

(** [dt.astimezone(JST).strftime('%H:%M')] for a [dt] at the instant [t]
    that [astimezone] converts. *)
Definition strftime_HM (t : Z) : string :=
  let sod := ((t + utcoffset_JST t) / 1000000) mod 86400 in
  two_digits (sod / 3600) ++ ":" ++ two_digits (sod mod 3600 / 60).

(** The table of [get_direction_arrow]: [arrows.get(direction, '')]. *)
Definition arrows_get (d : string) : string :=
  if String.eqb d "DoubleUp" then "⇈"
  else if String.eqb d "SingleUp" then "↑"
  else if String.eqb d "FortyFiveUp" then "↗"
  else if String.eqb d "Flat" then "→"
  else if String.eqb d "FortyFiveDown" then "↘"
  else if String.eqb d "SingleDown" then "↓"
  else if String.eqb d "DoubleDown" then "⇊"
  else if String.eqb d "NOT COMPUTABLE" then "?"
  else if String.eqb d "RATE OUT OF RANGE" then "?"
  else "".

(** [sorted(l, key=key)] for text keys: the stable sort. An element is put
    in front of the first element of the sorted rest whose key is not
    smaller than its own, so it stays ahead of the later elements of equal
    key. *)
Fixpoint insert_by {A : Type} (key : A -> string) (x : A) (l : list A) : list A :=
  match l with
  | [] => [x]
  | y :: l' =>
      if String.leb (key x) (key y) then x :: l else y :: insert_by key x l'
  end.

Definition sorted {A : Type} (key : A -> string) (l : list A) : list A :=
  fold_right (insert_by key) [] l.

(** [min(l, key=key)] for [float] keys, as CPython runs it: the key of
    every element is computed in turn, the element kept is replaced only by
    one whose key is [<] the key kept, and a key that raises ends the call
    ([None]). *)
Fixpoint min_from {A : Type} (key : A -> option float) (best : A)
    (best_key : float) (l : list A) : option A :=
  match l with
  | [] => Some best
  | x :: l' =>
      match key x with
      | None => None
      | Some k =>
          if fltb k best_key then min_from key x k l'
          else min_from key best best_key l'
      end
  end.

Definition py_min {A : Type} (key : A -> option float) (l : list A)
    : option A :=
  match l with
  | [] => None
  | x :: l' =>
      match key x with
      | None => None
      | Some k => min_from key x k l'
      end
  end.

(** The chart loop, identical in the two files: the readings in the order
    given, those whose time does not parse or whose [sgv] is [None] left
    out. *)
Fixpoint chart (l : list Entry) : list string * list Z :=
  match l with
  | [] => ([], [])
  | e :: l' =>
      let (times, bgs) := chart l' in
      match instant_of (dateString e) with
      | None => (times, bgs)
      | Some dt =>
          match sgv e with
          | Some bg => (strftime_HM dt :: times, bg :: bgs)
          | None => (times, bgs)
          end
      end
  end.

(** [bg_values]: the [sgv] of the readings that have one. *)
Fixpoint bg_values (l : list Entry) : list Z :=
  match l with
  | [] => []
  | e :: l' =>
      match sgv e with
      | Some v => v :: bg_values l'
      | None => bg_values l'
      end
  end.

(** [sum(l)]. *)
Definition sum (l : list Z) : Z := fold_left Z.add l 0.

(** [round(sum(bg_values) / len(bg_values)) if bg_values else 0]. *)
Definition average (values : list Z) : Z :=
  match values with
  | [] => 0
  | _ => round_int (int_div (sum values) (Z.of_nat (List.length values)))
  end.

(** [f"{total_carbs / total_insulin:.1f}" if total_insulin > 0 else "-"]. *)
Definition tcir_of (carbs_total insulin_total : float) : string :=
  if fltb (float_of_int 0) insulin_total
  then format_f 1 (fdiv carbs_total insulin_total)
  else "-".

End Common.

(** ** [app.py]: class [DataProcessor] *)

Module App.

Section WithRuntime.

Context {RT : Runtime}.

(** [get_direction_arrow]. *)
Definition get_direction_arrow (direction : option string) : string :=
  match direction with
  | Some d => if nonempty d then arrows_get d else ""
  | None => ""
  end.

(** The dictionary [parse_notes] returns. *)
Record ParsedNote := {
  cir : option float;
  predicted_insulin : option float;
  insulin_type : option string;
  foods : list string;
  basal_amount : option float
}.

Definition empty_note : ParsedNote :=
  {| cir := None; predicted_insulin := None; insulin_type := None;
     foods := []; basal_amount := None |}.

(** [[line.strip() for line in notes.strip().split('\n') if line.strip()]]. *)
Definition note_lines (notes : string) : list string :=
  filter nonempty (map strip (split_lines (strip notes))).

(** [first_line.replace('cir', '').replace('CIR', '').strip()]. *)
Definition test_line (first_line : string) : string :=
  strip (replace (replace first_line "cir" "") "CIR" "").

(** The [N]/[F] suffix of the second token: the type it sets, if any, and
    the text left to parse as the predicted insulin. The token comes from
    [split] and is never empty, so [second_part[-1]] does not raise. *)
Definition split_suffix (second_part : string) : option string * string :=
  match last_char second_part with
  | Some c =>
      let u := upper (String c EmptyString) in
      if String.eqb u "N" || String.eqb u "F"
      then (Some u, drop_last second_part)
      else (None, second_part)
  | None => (None, second_part)
  end.

(** [parse_notes]. *)
Definition parse_notes (notes : string) : ParsedNote :=
  if negb (nonempty notes) then empty_note
  else
    match note_lines notes with
    | [] => empty_note
    | first_line :: rest =>
        if startswith first_line "Tore " || startswith first_line "トレ " then
          {| cir := None; predicted_insulin := None; insulin_type := None;
             foods := "基礎インスリン" :: rest;
             basal_amount :=
               match split first_line with
               | _ :: amount :: _ => float_of_str amount
               | _ => None
               end |}
        else if String.eqb (upper first_line) "B" then
          {| cir := None; predicted_insulin := None; insulin_type := None;
             foods := "ぶどう糖補食" :: rest; basal_amount := None |}
        else if String.eqb (upper first_line) "N"
                || String.eqb (upper first_line) "F" then
          {| cir := None; predicted_insulin := None;
             insulin_type := Some (upper first_line);
             foods := rest; basal_amount := None |}
        else
          let parts := split (test_line first_line) in
          let is_cir_format :=
            match parts with
            | first :: _ =>
                match float_of_str first with
                | Some _ => true
                | None => false
                end
            | [] => false
            end in
          if is_cir_format then
            {| cir :=
                 match parts with
                 | first :: _ => float_of_str first
                 | [] => None
                 end;
               predicted_insulin :=
                 match parts with
                 | _ :: second_part :: _ =>
                     float_of_str (snd (split_suffix second_part))
                 | _ => None
                 end;
               insulin_type :=
                 match parts with
                 | _ :: second_part :: _ => fst (split_suffix second_part)
                 | _ => None
                 end;
               foods := rest; basal_amount := None |}
          else
            {| cir := None; predicted_insulin := None; insulin_type := None;
               foods := first_line :: rest; basal_amount := None |}
    end.

(** The running totals [stats] holds while the treatments are read. *)
Record Totals := {
  sum_insulin : float;
  sum_basal : float;
  sum_carbs : float
}.

Definition no_totals : Totals :=
  {| sum_insulin := float_of_int 0; sum_basal := float_of_int 0;
     sum_carbs := float_of_int 0 |}.

(** The carbohydrate block of a row: [total_carbs] and, for 1 to 3 grams,
    the automatic snack item. *)
Definition count_carbs (tot : Totals) (carbs_str : string) (fs : list string)
    : Totals * list string :=
  if nonempty carbs_str then
    match float_of_str carbs_str with
    | Some carbs_val =>
        ({| sum_insulin := sum_insulin tot; sum_basal := sum_basal tot;
            sum_carbs := fadd (sum_carbs tot) carbs_val |},
         if fleb (float_of_int 1) carbs_val && fleb carbs_val (float_of_int 3)
         then
           let has_hosyoku := existsb (contains "補食") fs in
           if negb has_hosyoku then "補食" :: fs else fs
         else fs)
    | None => (tot, fs)
    end
  else (tot, fs).

(** [is_basal]: some food item is the basal marker. *)
Definition is_basal (fs : list string) : bool :=
  existsb (String.eqb "基礎インスリン") fs.

(** The insulin block of a row. *)
Definition count_insulin (tot : Totals) (fs : list string)
    (basal : option float) (insulin_str : string) : Totals :=
  if is_basal fs && truthy_opt basal then
    match basal with
    | Some amount =>
        {| sum_insulin := sum_insulin tot;
           sum_basal := fadd (sum_basal tot) amount;
           sum_carbs := sum_carbs tot |}
    | None => tot
    end
  else if nonempty insulin_str then
    match float_of_str insulin_str with
    | Some units =>
        {| sum_insulin := fadd (sum_insulin tot) units;
           sum_basal := sum_basal tot;
           sum_carbs := sum_carbs tot |}
    | None => tot
    end
  else tot.

(** The key of the search for the closest reading, and the number tested
    against the window:
    [abs(datetime.fromisoformat(x['dateString'].replace('Z', '+00:00')).timestamp() - dt_utc.timestamp())],
    a difference of two [float]s. [None] is the [ValueError] of a
    [dateString] that does not parse. *)
Definition distance (dt_utc : datetime) (x : Entry) : option float :=
  match parse_time (dateString x) with
  | Some u => Some (fabs (fsub (timestamp u) (timestamp dt_utc)))
  | None => None
  end.

(** The text built from the closest reading once it is within the window;
    [None] is the exception [round(delta)] raises on a [delta] that is an
    infinity or a NaN. *)
Definition cgm_text (closest : Entry) : option string :=
  match sgv closest with
  | Some cgm_val =>
      if cgm_val =? 0 then Some ""
      else
        let arrow := get_direction_arrow (direction closest) in
        let delta_str :=
          match delta closest with
          | Some d =>
              if truthy d then
                match round_float d with
                | Some rounded =>
                    Some (" (" ++ (if fltb (float_of_int 0) d then "+" else "")
                               ++ str_of_int rounded ++ ")")
                | None => None
                end
              else Some ""
          | None => Some ""
          end in
        match delta_str with
        | Some text => Some (str_of_int cgm_val ++ text ++ " " ++ arrow)
        | None => None
        end
  | None => Some ""
  end.

(** The CGM block of a row; [None] is an exception raised inside it: a
    reading whose time does not parse, or the closest reading within the
    window having a [delta] that [round] refuses. *)
Definition cgm_display (entries : list Entry) (dt_utc : datetime)
    : option string :=
  match entries with
  | [] => Some ""
  | _ =>
      match py_min (distance dt_utc) entries with
      | None => None
      | Some closest =>
          match distance dt_utc closest with
          | None => None
          | Some d =>
              if fltb d (float_of_int 900) then cgm_text closest else Some ""
          end
      end
  end.

(** The measured value appended to, or standing for, the CGM text. *)
Definition add_measured (bg_display : string) (measured : option string) : string :=
  if nonempty (get_str measured) then
    if nonempty bg_display
    then bg_display ++ " / 実測:" ++ get_str measured
    else "実測:" ++ get_str measured
  else bg_display.

(** The body of the [for treatment in treatments_sorted] loop. The totals
    are updated as the body runs; the row is [None] when the body raised
    and the [except] clause skipped it. *)
Definition process_treatment (entries : list Entry) (tot : Totals)
    (treatment : Treatment) : Totals * option Row :=
  match moment_of (get_str (created_at treatment)) with
  | None => (tot, None)
  | Some dt_utc =>
      let parsed := parse_notes (get_str (notes treatment)) in
      let carbs_str := get_str (carbs treatment) in
      let insulin_str := get_str (insulin treatment) in
      let (tot1, fs) := count_carbs tot carbs_str (foods parsed) in
      let tot2 := count_insulin tot1 fs (basal_amount parsed) insulin_str in
      match cgm_display entries dt_utc with
      | None => (tot2, None)
      | Some cgm =>
          let bg_display := add_measured cgm (glucose treatment) in
          (tot2,
           Some {| row_time := strftime_HM (instant dt_utc);
                   row_bg := str_or_dash bg_display;
                   row_cir := num_or_dash (cir parsed);
                   row_carbs :=
                     if nonempty carbs_str then carbs_str ++ "g" else "-";
                   row_predicted := num_or_dash (predicted_insulin parsed);
                   row_actual := str_or_dash insulin_str;
                   row_type := str_or_dash (get_str (insulin_type parsed));
                   row_food :=
                     match fs with
                     | [] => "-"
                     | _ => join ", " fs
                     end |})
      end
  end.

(** The loop over the sorted treatments: the totals and the rows so far. *)
Fixpoint process_treatments (entries : list Entry) (tot : Totals)
    (treatments : list Treatment) : Totals * list Row :=
  match treatments with
  | [] => (tot, [])
  | treatment :: rest =>
      let (tot', row) := process_treatment entries tot treatment in
      let (final, rows) := process_treatments entries tot' rest in
      (final,
       match row with
       | Some r => r :: rows
       | None => rows
       end)
  end.

(** [process_report_data]. *)
Definition process_report_data (entries : list Entry)
    (treatments : list Treatment) : Report :=
  let entries_sorted := sorted dateString entries in
  let chart_data := chart entries_sorted in
  let treatments_sorted :=
    sorted (fun x => get_str (created_at x)) treatments in
  let (tot, table_rows) := process_treatments entries no_totals treatments_sorted in
  {| chart_times := fst chart_data;
     chart_bgs := snd chart_data;
     table_data := table_rows;
     avg_bg := average (bg_values entries);
     total_insulin := round_to 2 (sum_insulin tot);
     basal_insulin := round_to 2 (sum_basal tot);
     total_carbs := sum_carbs tot;
     tcir := tcir_of (sum_carbs tot) (sum_insulin tot) |}.

End WithRuntime.

End App.

(** ** [nightscout_web_app.py]: the module's functions *)

Module Web.

Section WithRuntime.

Context {RT : Runtime}.

(** [get_direction_arrow]. *)
Definition get_direction_arrow (direction : string) : string :=
  arrows_get direction.

(** The tuple [parse_notes] returns: [cir], [predicted_insulin],
    [insulin_type], [foods], [basal_amount]. *)
Definition ParsedNote : Type :=
  option float * option float * option string * list string * option float.

(** The loops [for i in range(1, len(lines))] and [for line in lines]: the
    stripped lines that are not empty. *)
Definition kept (lines : list string) : list string :=
  filter nonempty (map strip lines).

(** [first_line.replace('cir', '').replace('CIR', '').replace('Cir', '').strip()]. *)
Definition test_line (first_line : string) : string :=
  strip (replace (replace (replace first_line "cir" "") "CIR" "") "Cir" "").

(** The [N]/[F] suffix of the second token, behind the guard
    [second_part and ...]. *)
Definition split_suffix (second_part : string) : option string * string :=
  match last_char second_part with
  | Some c =>
      let u := upper (String c EmptyString) in
      if String.eqb u "N" || String.eqb u "F"
      then (Some u, drop_last second_part)
      else (None, second_part)
  | None => (None, second_part)
  end.

(** [parse_notes]. *)
Definition parse_notes (notes : string) : ParsedNote :=
  if negb (nonempty notes) then (None, None, None, [], None)
  else
    match split_lines (strip notes) with
    | [] => (None, None, None, [], None)
    | line0 :: rest =>
        let first_line := strip line0 in
        if startswith first_line "Tore " || startswith first_line "トレ " then
          (None, None, None, "基礎インスリン" :: kept rest,
           match split first_line with
           | _ :: amount :: _ => float_of_str amount
           | _ => None
           end)
        else if String.eqb (upper first_line) "B" then
          (None, None, None, "ぶどう糖補食" :: kept rest, None)
        else if String.eqb (upper first_line) "N"
                || String.eqb (upper first_line) "F" then
          (None, None, Some (upper first_line), kept rest, None)
        else
          let parts := split (test_line first_line) in
          let is_cir_format :=
            match parts with
            | first :: _ =>
                match float_of_str first with
                | Some _ => true
                | None => false
                end
            | [] => false
            end in
          if is_cir_format then
            (match parts with
             | first :: _ => float_of_str first
             | [] => None
             end,
             match parts with
             | _ :: part :: _ => float_of_str (snd (split_suffix (strip part)))
             | _ => None
             end,
             match parts with
             | _ :: part :: _ => fst (split_suffix (strip part))
             | _ => None
             end,
             kept rest, None)
          else (None, None, None, kept (line0 :: rest), None)
    end.

(** The key of the search for the closest reading:
    [abs((datetime.fromisoformat(x['dateString'].replace('Z', '+00:00')).astimezone(JST) - time_jst).total_seconds())],
    for a treatment at the instant [time_jst]. [None] is an exception: the
    [dateString] does not parse or [astimezone] raises. *)
Definition distance (time_jst : Z) (x : Entry) : option float :=
  match instant_of (dateString x) with
  | Some u => Some (fabs (total_seconds (u - time_jst)))
  | None => None
  end.

(** The [direction] part of the text. *)
Definition direction_text (closest_entry : Entry) : string :=
  match direction closest_entry with
  | Some d => if nonempty d then " " ++ get_direction_arrow d else ""
  | None => ""
  end.

(** The CGM block of a row. Its [try] ... [except: pass] leaves the text as
    it is when an exception is raised: empty when the key of a reading
    raises, the bare value when [round(delta)] raises. *)
Definition cgm_display (entries : list Entry) (time_jst : Z) : string :=
  match entries with
  | [] => ""
  | _ =>
      match py_min (distance time_jst) entries with
      | None => ""
      | Some closest_entry =>
          match sgv closest_entry with
          | Some cgm_value =>
              if cgm_value =? 0 then ""
              else
                match delta closest_entry with
                | Some d =>
                    match round_float d with
                    | Some delta_rounded =>
                        str_of_int cgm_value
                        ++ " (" ++ (if 0 <? delta_rounded then "+" else "")
                        ++ str_of_int delta_rounded ++ ")"
                        ++ direction_text closest_entry
                    | None => str_of_int cgm_value
                    end
                | None => str_of_int cgm_value ++ direction_text closest_entry
                end
          | None => ""
          end
      end
  end.

(** The measured value appended to, or standing for, the CGM text. *)
Definition add_measured (bg_display : string) (bg_check_value : option string)
    : string :=
  if nonempty (get_str bg_check_value) then
    if nonempty bg_display
    then bg_display ++ " / 実測:" ++ get_str bg_check_value
    else "実測:" ++ get_str bg_check_value
  else bg_display.

(** The automatic snack item for 1 to 3 grams of carbohydrate. *)
Definition auto_snack (carbs_str : string) (fs : list string) : list string :=
  if nonempty carbs_str then
    match float_of_str carbs_str with
    | Some carbs_value =>
        if fleb (float_of_int 1) carbs_value && fleb carbs_value (float_of_int 3)
        then
          if negb (existsb (String.eqb "ぶどう糖補食") fs)
             && negb (contains "補食" (join "" fs))
          then "補食" :: fs
          else fs
        else fs
    | None => fs
    end
  else fs.

(** The three running totals [total_insulin], [basal_insulin] and
    [total_carbs]. *)
Record Totals := {
  sum_insulin : float;
  sum_basal : float;
  sum_carbs : float
}.

Definition no_totals : Totals :=
  {| sum_insulin := float_of_int 0; sum_basal := float_of_int 0;
     sum_carbs := float_of_int 0 |}.

(** [is_basal]: some food item is the basal marker. *)
Definition is_basal (fs : list string) : bool :=
  existsb (String.eqb "基礎インスリン") fs.

(** The insulin block of a row. *)
Definition count_insulin (tot : Totals) (fs : list string)
    (basal : option float) (actual_insulin : string) : Totals :=
  if is_basal fs && truthy_opt basal then
    match basal with
    | Some amount =>
        {| sum_insulin := sum_insulin tot;
           sum_basal := fadd (sum_basal tot) amount;
           sum_carbs := sum_carbs tot |}
    | None => tot
    end
  else if nonempty actual_insulin then
    match float_of_str actual_insulin with
    | Some units =>
        {| sum_insulin := fadd (sum_insulin tot) units;
           sum_basal := sum_basal tot;
           sum_carbs := sum_carbs tot |}
    | None => tot
    end
  else tot.

(** The carbohydrate total of a row. *)
Definition count_carbs (tot : Totals) (carbs_str : string) : Totals :=
  if nonempty carbs_str then
    match float_of_str carbs_str with
    | Some v =>
        {| sum_insulin := sum_insulin tot; sum_basal := sum_basal tot;
           sum_carbs := fadd (sum_carbs tot) v |}
    | None => tot
    end
  else tot.

(** The body of the [for treatment in treatments_sorted] loop. Nothing
    guards its first statements: [None] is the [ValueError] of a
    [created_at] that does not parse, or the [OverflowError] of
    [astimezone], which leaves the function. *)
Definition prepare_row (entries : list Entry) (tot : Totals)
    (treatment : Treatment) : option (Totals * Row) :=
  match instant_of (get_str (created_at treatment)) with
  | None => None
  | Some time_utc =>
      let bg_display :=
        add_measured (cgm_display entries time_utc) (glucose treatment) in
      let '(cir, predicted_insulin, insulin_type, foods, basal_amount) :=
        parse_notes (get_str (notes treatment)) in
      let carbs_str := get_str (carbs treatment) in
      let actual_insulin := get_str (insulin treatment) in
      let fs := auto_snack carbs_str foods in
      let tot1 := count_insulin tot fs basal_amount actual_insulin in
      let tot2 := count_carbs tot1 carbs_str in
      Some (tot2,
            {| row_time := strftime_HM time_utc;
               row_bg := str_or_dash bg_display;
               row_cir := num_or_dash cir;
               row_carbs :=
                 if nonempty carbs_str then carbs_str ++ "g" else "-";
               row_predicted := num_or_dash predicted_insulin;
               row_actual := str_or_dash actual_insulin;
               row_type := str_or_dash (get_str insulin_type);
               row_food :=
                 match fs with
                 | [] => "-"
                 | _ => join ", " fs
                 end |})
  end.

(** The loop over the sorted treatments; [None] once a body raised. *)
Fixpoint prepare_rows (entries : list Entry) (tot : Totals)
    (treatments : list Treatment) : option (Totals * list Row) :=
  match treatments with
  | [] => Some (tot, [])
  | treatment :: rest =>
      match prepare_row entries tot treatment with
      | None => None
      | Some (tot', row) =>
          match prepare_rows entries tot' rest with
          | None => None
          | Some (final, rows) => Some (final, row :: rows)
          end
      end
  end.

(** [prepare_report_data]; [None] is an exception that leaves it. The
    [date_str] argument is not used by the function. *)
Definition prepare_report_data (date_str : string) (entries : list Entry)
    (treatments : list Treatment) : option Report :=
  let entries_sorted := sorted dateString entries in
  let chart_data := chart entries_sorted in
  let treatments_sorted :=
    sorted (fun x => get_str (created_at x)) treatments in
  match prepare_rows entries no_totals treatments_sorted with
  | None => None
  | Some (tot, rows) =>
      Some {| chart_times := fst chart_data;
              chart_bgs := snd chart_data;
              table_data := rows;
              avg_bg := average (bg_values entries);
              total_insulin := sum_insulin tot;
              basal_insulin := sum_basal tot;
              total_carbs := sum_carbs tot;
              tcir := tcir_of (sum_carbs tot) (sum_insulin tot) |}
  end.

End WithRuntime.

End Web.

(** ** An instance of the runtime: CPython on IEEE binary64 *)


Module PyNum.

Import SpecFloat.

Definition prec : Z := FloatOps.prec.
Definition emax : Z := FloatOps.emax.

(** The [float] nearest to the integer [n] (ties to even). *)
Definition sf_of_int (n : Z) : spec_float :=
  binary_normalize prec emax n 0 false.

(** The [float] nearest to the quotient [a / b] of two integers, [b > 0]
    (ties to even). *)
Definition sf_of_ratio (a b : Z) : spec_float :=
  match a, b with
  | Zpos p, Zpos q =>
      SFdiv prec emax (S754_finite false p 0) (S754_finite false q 0)
  | Zneg p, Zpos q =>
      SFdiv prec emax (S754_finite true p 0) (S754_finite false q 0)
  | Z0, Zpos _ => S754_zero false
  | _, _ => S754_nan
  end.

(** [a / b] rounded to the nearest integer, ties to even, for [a >= 0] and
    [b > 0]. *)
Definition div_half_even (a b : Z) : Z :=
  let q := a / b in
  match 2 * (a mod b) ?= b with
  | Lt => q
  | Gt => q + 1
  | Eq => if Z.even q then q else q + 1
  end.

(** The sign of a finite [x] and [|x| * 10^n] rounded to the nearest
    integer, ties to even. *)
Definition scaled (n : nat) (x : spec_float) : option (bool * Z) :=
  match x with
  | S754_zero s => Some (s, 0)
  | S754_finite s m e =>
      Some (s, if 0 <=? e then Zpos m * 2 ^ e * 10 ^ Z.of_nat n
               else div_half_even (Zpos m * 10 ^ Z.of_nat n) (2 ^ (- e)))
  | _ => None
  end.

Definition digit (c : ascii) : option Z :=
  let n := nat_of_ascii c in
  if ((48 <=? n) && (n <=? 57))%nat then Some (Z.of_nat n - 48) else None.

(** Reads the digits [s] starts with: their value after [acc], how many
    they are, and what follows them. *)
Fixpoint read_digits (acc : Z) (count : nat) (s : string) : Z * nat * string :=
  match s with
  | EmptyString => (acc, count, s)
  | String c s' =>
      match digit c with
      | Some d => read_digits (10 * acc + d) (S count) s'
      | None => (acc, count, s)
      end
  end.

(** An optional sign: whether it is a minus, and what follows it. *)
Definition read_sign (s : string) : bool * string :=
  match s with
  | String "-" s' => (true, s')
  | String "+" s' => (false, s')
  | _ => (false, s)
  end.

(** The exponent part [e±ddd] of a literal, [0] when there is none; [None]
    when what is left is not an exponent part. *)
Definition read_exponent (s : string) : option Z :=
  match s with
  | EmptyString => Some 0
  | String c s' =>
      if String.eqb (upper (String c EmptyString)) "E" then
        let (neg, digits) := read_sign s' in
        match read_digits 0 0 digits with
        | (_, O, _) => None
        | (e, _, EmptyString) => Some (if neg then - e else e)
        | _ => None
        end
      else None
  end.

(** The value [±m * 10^e] as the nearest [float]. *)
Definition decimal (neg : bool) (m e : Z) : spec_float :=
  if m =? 0 then S754_zero neg
  else
    let signed := if neg then - m else m in
    if 0 <=? e then sf_of_int (signed * 10 ^ e)
    else sf_of_ratio signed (10 ^ (- e)).

(** [float(s)] on the decimal literals [[±]ddd[.ddd][e[±]dd]], [inf],
    [infinity] and [nan], white space around them ignored. Digit-group
    underscores and digits outside [0]..[9] are not read. *)
Definition parse_float (s : string) : option spec_float :=
  let (neg, body) := read_sign (strip s) in
  let word := upper body in
  if String.eqb word "INF" || String.eqb word "INFINITY" then
    Some (S754_infinity neg)
  else if String.eqb word "NAN" then Some S754_nan
  else
    let '(int_part, int_count, after_int) := read_digits 0 0 body in
    let '(mantissa, frac_count, after_frac) :=
      match after_int with
      | String "." s' =>
          let '(m, k, rest) := read_digits int_part 0 s' in (m, k, rest)
      | _ => (int_part, O, after_int)
      end in
    match (int_count + frac_count)%nat with
    | O => None
    | _ =>
        match read_exponent after_frac with
        | Some e => Some (decimal neg mantissa (e - Z.of_nat frac_count))
        | None => None
        end
    end.

Fixpoint zeros (n : nat) : string :=
  match n with
  | O => EmptyString
  | S k => String "0" (zeros k)
  end.

(** [x] formatted with [.nf]. *)
Definition format_fixed (n : nat) (x : spec_float) : string :=
  match scaled n x with
  | Some (neg, v) =>
      let unit := 10 ^ Z.of_nat n in
      let frac := str_of_int (v mod unit) in
      (if neg then "-" else "") ++ str_of_int (v / unit)
      ++ match n with
         | O => ""
         | _ => "." ++ zeros (n - String.length frac) ++ frac
         end
  | None =>
      match x with
      | S754_infinity true => "-inf"
      | S754_infinity false => "inf"
      | _ => "nan"
      end
  end.

(** [round(x)] for a finite [x]. *)
Definition round_half_even (x : spec_float) : Z :=
  match scaled 0 x with
  | Some (neg, v) => if neg then - v else v
  | None => 0
  end.

(** [round(x, n)]: the [float] nearest to the decimal with [n] places
    nearest to [x]. *)
Definition round_places (n : nat) (x : spec_float) : spec_float :=
  match parse_float (format_fixed n x) with
  | Some y => y
  | None => x
  end.

(** *** [datetime.fromisoformat] *)

(** Exactly [n] digits at the head of [s]: their value and what follows. *)
Definition read_exactly (n : nat) (s : string) : option (Z * string) :=
  match read_digits 0 0 (substring 0 n s) with
  | (v, count, EmptyString) =>
      if (count =? n)%nat
      then Some (v, substring n (String.length s - n) s)
      else None
  | _ => None
  end.

(** What follows the character [c] at the head of [s]. *)
Definition read_char (c : ascii) (s : string) : option string :=
  match s with
  | String c' s' => if Ascii.eqb c c' then Some s' else None
  | EmptyString => None
  end.

Definition is_leap (y : Z) : bool :=
  (y mod 4 =? 0) && (negb (y mod 100 =? 0) || (y mod 400 =? 0)).

Definition days_in_month (y m : Z) : Z :=
  if m =? 2 then (if is_leap y then 29 else 28)
  else if (m =? 4) || (m =? 6) || (m =? 9) || (m =? 11) then 30
  else 31.

(** Days from 1970-01-01 to the given day of the proleptic Gregorian
    calendar. *)
Definition days_from_civil (y m d : Z) : Z :=
  let y' := if m <=? 2 then y - 1 else y in
  let era := y' / 400 in
  let yoe := y' - era * 400 in
  let doy := (153 * (if 2 <? m then m - 3 else m + 9) + 2) / 5 + d - 1 in
  let doe := yoe * 365 + yoe / 4 - yoe / 100 + doy in
  era * 146097 + doe - 719468.

(** [HH[:MM[:SS[.fff[fff]]]]] at the head of [s]: the microseconds it
    stands for and what follows. *)
Definition read_clock (s : string) : option (Z * string) :=
  match read_exactly 2 s with
  | None => None
  | Some (h, s1) =>
      if 23 <? h then None
      else
        match read_char ":" s1 with
        | None => Some (h * 3600000000, s1)
        | Some s2 =>
            match read_exactly 2 s2 with
            | None => None
            | Some (mi, s3) =>
                if 59 <? mi then None
                else
                  let hm := h * 3600000000 + mi * 60000000 in
                  match read_char ":" s3 with
                  | None => Some (hm, s3)
                  | Some s4 =>
                      match read_exactly 2 s4 with
                      | None => None
                      | Some (sec, s5) =>
                          if 59 <? sec then None
                          else
                            let hms := hm + sec * 1000000 in
                            match read_char "." s5 with
                            | None => Some (hms, s5)
                            | Some s6 =>
                                match read_exactly 6 s6, read_exactly 3 s6 with
                                | Some (us, s7), _ => Some (hms + us, s7)
                                | None, Some (ms, s7) =>
                                    Some (hms + ms * 1000, s7)
                                | None, None => None
                                end
                            end
                      end
                  end
            end
        end
  end.

(** The offset [±HH:MM] that ends a time, in microseconds; a time without
    offset is read in the zone of the host, taken to be UTC. *)
Definition read_offset (s : string) : option Z :=
  match s with
  | EmptyString => Some 0
  | String c s' =>
      if Ascii.eqb c "+" || Ascii.eqb c "-" then
        match read_exactly 2 s' with
        | Some (h, s1) =>
            match read_char ":" s1 with
            | Some s2 =>
                match read_exactly 2 s2 with
                | Some (mi, EmptyString) =>
                    if (23 <? h) || (59 <? mi) then None
                    else
                      let off := h * 3600000000 + mi * 60000000 in
                      Some (if Ascii.eqb c "-" then - off else off)
                | _ => None
                end
            | None => None
            end
        | None => None
        end
      else None
  end.

(** [datetime.fromisoformat(s)] on [YYYY-MM-DD], alone or followed by one
    separator character, a time [HH[:MM[:SS[.fff[fff]]]]] and an optional
    offset [±HH:MM]: the instant in microseconds since the epoch; the
    [datetime] is aware when the offset is given. *)
Definition parse_iso (s : string) : option datetime :=
  match read_exactly 4 s with
  | None => None
  | Some (y, s1) =>
  match read_char "-" s1 with
  | None => None
  | Some s2 =>
  match read_exactly 2 s2 with
  | None => None
  | Some (m, s3) =>
  match read_char "-" s3 with
  | None => None
  | Some s4 =>
  match read_exactly 2 s4 with
  | None => None
  | Some (d, s5) =>
      if (y <? 1) || (m <? 1) || (12 <? m) || (d <? 1)
         || (days_in_month y m <? d) then None
      else
        let day := days_from_civil y m d * 86400000000 in
        match s5 with
        | EmptyString => Some {| instant := day; aware := false |}
        | String _ s6 =>
            match read_clock s6 with
            | None => None
            | Some (clock, s7) =>
                match read_offset s7 with
                | Some off =>
                    Some {| instant := day + clock - off;
                            aware := nonempty s7 |}
                | None => None
                end
            end
        end
  end end end end end.

(** *** The zone [Asia/Tokyo] *)

(** The instant of [h] o'clock UTC on a day, in microseconds. *)
Definition utc_hour (y m d h : Z) : Z :=
  (days_from_civil y m d * 86400 + h * 3600) * 1000000.

(** The four summers in which Japan kept daylight saving time: the first
    instant of each and the first instant after it. *)
Definition tokyo_summers : list (Z * Z) :=
  [ (utc_hour 1948 5 1 15, utc_hour 1948 9 11 15);
    (utc_hour 1949 4 2 15, utc_hour 1949 9 10 15);
    (utc_hour 1950 5 6 15, utc_hour 1950 9 9 15);
    (utc_hour 1951 5 5 15, utc_hour 1951 9 8 15) ].

(** The offset of [pytz.timezone('Asia/Tokyo')] at the instant [t], in
    microseconds, as the tz database has the zone since its release 2018f:
    local mean time, 9:18:59, which [pytz] rounds to the minute, until
    1887-12-31T15:00Z; ten hours in the four summers; nine hours
    otherwise. *)
Definition tokyo_utcoffset (t : Z) : Z :=
  if t <? utc_hour 1887 12 31 15 then (9 * 3600 + 19 * 60) * 1000000
  else if existsb (fun p => (fst p <=? t) && (t <? snd p)) tokyo_summers
  then 10 * 3600 * 1000000
  else 9 * 3600 * 1000000.

End PyNum.

(** The instance: numbers are binary64 floats, [float] reads decimal
    literals, instants come from ISO 8601 strings, the zone is that of the
    tz database. *)
#[export] Instance Py : Runtime := {|
  float := PrimFloat.float;
  float_of_str s := option_map FloatOps.SF2Prim (PyNum.parse_float s);
  float_of_int n := FloatOps.SF2Prim (PyNum.sf_of_int n);
  fadd := PrimFloat.add;
  fsub := PrimFloat.sub;
  fdiv := PrimFloat.div;
  fabs := PrimFloat.abs;
  feqb := PrimFloat.eqb;
  fltb := PrimFloat.ltb;
  fleb := PrimFloat.leb;
  int_div a b := FloatOps.SF2Prim (PyNum.sf_of_ratio a b);
  is_finite := PrimFloat.is_finite;
  round_int x := PyNum.round_half_even (FloatOps.Prim2SF x);
  round_to n x :=
    FloatOps.SF2Prim (PyNum.round_places n (FloatOps.Prim2SF x));
  format_f n x := PyNum.format_fixed n (FloatOps.Prim2SF x);
  fromisoformat := PyNum.parse_iso;
  utcoffset_JST := PyNum.tokyo_utcoffset
|}.


(** ** Statements of the specification and sample inputs *)

(** *** Order of processing *)

(** The keys of a list are in ascending order: no key is followed, anywhere
    later, by a smaller one. *)
Definition ascending_by {A : Type} (key : A -> string) (l : list A) : Prop :=
  StronglySorted (fun a b => String.leb (key a) (key b) = true) l.


(** The sort key of a treatment: [x.get('created_at', '')]. *)
Definition created_key {RT : Runtime} (x : Treatment) : string :=
  get_str (created_at x).

(** The instants of the readings whose time parses, in the order of the
    list. *)
Fixpoint instants {RT : Runtime} (l : list Entry) : list Z :=
  match l with
  | [] => []
  | e :: l' =>
      match instant_of (dateString e) with
      | Some t => t :: instants l'
      | None => instants l'
      end
  end.

(** As the specification states the order: the instants ascend. *)
Fixpoint chronological (l : list Z) : bool :=
  match l with
  | a :: (b :: _) as rest => (a <=? b) && chronological rest
  | _ => true
  end.

(** Two readings of the same day given with different UTC offsets: the
    first is at 01:00 UTC, the second at 02:00 UTC. *)
Definition offset_entries : list (@Entry Py) :=
  [ {| dateString := "2024-01-15T10:00:00+09:00"; sgv := Some 110;
       direction := None; delta := None |};
    {| dateString := "2024-01-15T02:00:00+00:00"; sgv := Some 120;
       direction := None; delta := None |} ].

(** Two treatments of the same morning given with different UTC offsets:
    ten grams at 01:00 UTC, twenty grams at 02:00 UTC. *)
Definition offset_treatments : list Treatment :=
  [ {| created_at := Some "2024-01-15T10:00:00+09:00"; notes := None;
       carbs := Some "10"; insulin := None; glucose := None |};
    {| created_at := Some "2024-01-15T02:00:00+00:00"; notes := None;
       carbs := Some "20"; insulin := None; glucose := None |} ].

(** *** Average glucose *)




(** Three readings, one of them without value; the mean of 101 and 104 is
    102.5, which [round] takes to the even neighbour 102. *)
Definition three_entries : list (@Entry Py) :=
  [ {| dateString := "2024-01-15T00:00:00Z"; sgv := Some 101;
       direction := Some "Flat"; delta := None |};
    {| dateString := "2024-01-15T00:05:00Z"; sgv := None;
       direction := None; delta := None |};
    {| dateString := "2024-01-15T00:10:00Z"; sgv := Some 104;
       direction := Some "SingleUp"; delta := Some 3%float |} ].

(** *** Notes *)

(** The first line opens a basal record: it starts with one of the two
    spellings of the marker, each followed by a space. *)
Definition basal_line (first_line : string) : bool :=
  startswith first_line "Tore " || startswith first_line "トレ ".

(** The note of the specification's basal example: ["Tore 2.0\nrice ball"]. *)
Definition basal_note : string := "Tore 2.0" ++ nl ++ "rice ball".

(** The same note with a padded first line, a blank line and a padded
    line, between two line breaks. *)
Definition padded_basal_note : string :=
  nl ++ "Tore 2.0 " ++ nl ++ "  " ++ nl ++ " rice ball  " ++ nl.

(** A parsed note of [app.py] over binary64 numbers. *)
Definition app_note (c p : option PrimFloat.float) (ty : option string)
    (fs : list string) (b : option PrimFloat.float) : @App.ParsedNote Py :=
  {| App.cir := c; App.predicted_insulin := p; App.insulin_type := ty;
     App.foods := fs; App.basal_amount := b |}.

(** A tuple of the web module's [parse_notes] over binary64 numbers. *)
Definition web_note (c p : option PrimFloat.float) (ty : option string)
    (fs : list string) (b : option PrimFloat.float) : @Web.ParsedNote Py :=
  (c, p, ty, fs, b).

(** The first line opens none of the basal, snack-tablet and insulin-type
    records, so the ratio grammar is tried on it. *)
Definition ratio_line (first_line : string) : bool :=
  negb (basal_line first_line)
  && negb (String.eqb (upper first_line) "B")
  && negb (String.eqb (upper first_line) "N"
           || String.eqb (upper first_line) "F").

(** The insulin type a token ends with: ["N"] or ["F"] when its last
    character is that letter in either case. *)
Definition type_letter (token : string) : option string :=
  match last_char token with
  | Some c =>
      let u := upper (String c EmptyString) in
      if String.eqb u "N" || String.eqb u "F" then Some u else None
  | None => None
  end.

(** Removal of every occurrence of [pat] whatever the case of its letters,
    from left to right; [skip] counts the bytes of the occurrence found
    that are still to be dropped. *)
Fixpoint remove_ci_from (pat : string) (skip : nat) (s : string) : string :=
  match s with
  | EmptyString => EmptyString
  | String c s' =>
      match skip with
      | S k => remove_ci_from pat k s'
      | O =>
          if prefix (upper pat) (upper s)
          then remove_ci_from pat (String.length pat - 1) s'
          else String c (remove_ci_from pat 0 s')
      end
  end.

(** As the specification states it: "cir" stripped case-insensitively. *)
Definition strip_cir_any_case (s : string) : string := remove_ci_from "cir" 0 s.

(** As [app.py] does it: the spellings [cir] and [CIR] removed. *)
Definition strip_cir_app (s : string) : string :=
  replace (replace s "cir" "") "CIR" "".

(** As [nightscout_web_app.py] does it: [cir], [CIR] and [Cir] removed. *)
Definition strip_cir_web (s : string) : string :=
  replace (replace (replace s "cir" "") "CIR" "") "Cir" "".

(** The components of the tuple the web module's [parse_notes] returns. *)
Definition web_cir {RT : Runtime} (p : Web.ParsedNote) : option float :=
  let '(c, _, _, _, _) := p in c.
Definition web_predicted {RT : Runtime} (p : Web.ParsedNote) : option float :=
  let '(_, q, _, _, _) := p in q.
Definition web_type {RT : Runtime} (p : Web.ParsedNote) : option string :=
  let '(_, _, t, _, _) := p in t.
Definition web_foods {RT : Runtime} (p : Web.ParsedNote) : list string :=
  let '(_, _, _, f, _) := p in f.
Definition web_basal {RT : Runtime} (p : Web.ParsedNote) : option float :=
  let '(_, _, _, _, b) := p in b.

(** The rule for ratio records in [app.py], for a given way [strip_cir] of
    stripping "cir" from the first line: when the first token left parses
    as a float and the second ends with the letter of an insulin type, the
    note has that ratio, that type, and the rest of the second token parsed
    as its predicted insulin. *)
Definition app_ratio_rule {RT : Runtime} (strip_cir : string -> string) : Prop :=
  forall notes first rest ratio_token second more r letter,
    App.note_lines notes = first :: rest ->
    ratio_line first = true ->
    split (strip (strip_cir first)) = ratio_token :: second :: more ->
    float_of_str ratio_token = Some r ->
    type_letter second = Some letter ->
    App.cir (App.parse_notes notes) = Some r
    /\ App.insulin_type (App.parse_notes notes) = Some letter
    /\ App.predicted_insulin (App.parse_notes notes)
       = float_of_str (drop_last second).

(** The same rule in [nightscout_web_app.py]. *)
Definition web_ratio_rule {RT : Runtime} (strip_cir : string -> string) : Prop :=
  forall notes line0 rest ratio_token second more r letter,
    nonempty notes = true ->
    split_lines (strip notes) = line0 :: rest ->
    ratio_line (strip line0) = true ->
    split (strip (strip_cir (strip line0))) = ratio_token :: second :: more ->
    float_of_str ratio_token = Some r ->
    type_letter (strip second) = Some letter ->
    web_cir (Web.parse_notes notes) = Some r
    /\ web_type (Web.parse_notes notes) = Some letter
    /\ web_predicted (Web.parse_notes notes)
       = float_of_str (drop_last (strip second)).

(** *** Table cells *)

(** The optional number is missing or equal to zero. *)
Definition zero_or_absent {RT : Runtime} (x : option float) : bool :=
  match x with
  | Some v => feqb v (float_of_int 0)
  | None => true
  end.

(** A treatment whose note gives a ratio and a predicted insulin of zero. *)
Definition zero_treatment : Treatment :=
  {| created_at := Some "2024-01-15T03:00:00Z"; notes := Some "0 0.0N";
     carbs := Some "10"; insulin := Some "1"; glucose := None |}.

(** *** Insulin totals *)

(** What a treatment adds to the insulin totals. *)
Inductive insulin_class {RT : Runtime} :=
| Basal (amount : float)
| Bolus (units : float)
| Neither.

(** [basalAmount] is present. *)
Definition present {RT : Runtime} (x : option float) : bool :=
  match x with
  | Some _ => true
  | None => false
  end.

(** The class of a treatment from its food items, basal amount and insulin
    text, [counts] deciding when a basal amount counts: basal when the food
    items hold the basal marker and the amount counts, otherwise bolus when
    the insulin text is given and parses, otherwise neither. *)
Definition classify {RT : Runtime} (counts : option float -> bool)
    (fs : list string) (basal : option float) (insulin_str : string)
    : insulin_class :=
  let otherwise :=
    if nonempty insulin_str then
      match float_of_str insulin_str with
      | Some u => Bolus u
      | None => Neither
      end
    else Neither in
  match basal with
  | Some a =>
      if existsb (String.eqb "基礎インスリン") fs && counts basal
      then Basal a else otherwise
  | None => otherwise
  end.

(** The totals [b'] (basal) and [i'] (bolus) after a treatment of class [c],
    from the totals [b] and [i] before it: one of them at most has grown. *)
Definition adds {RT : Runtime} (c : insulin_class) (b i b' i' : float) : Prop :=
  match c with
  | Basal a => b' = fadd b a /\ i' = i
  | Bolus u => b' = b /\ i' = fadd i u
  | Neither => b' = b /\ i' = i
  end.

(** The food items of a treatment in [app.py] once the automatic snack
    item is in. *)
Definition app_foods {RT : Runtime} (t : Treatment) : list string :=
  snd (App.count_carbs App.no_totals (get_str (carbs t))
         (App.foods (App.parse_notes (get_str (notes t))))).

(** The food items of a treatment in [nightscout_web_app.py] once the
    automatic snack item is in. *)
Definition web_foods_of {RT : Runtime} (t : Treatment) : list string :=
  Web.auto_snack (get_str (carbs t))
    (web_foods (Web.parse_notes (get_str (notes t)))).

(** The insulin rule in [app.py] for a given reading [counts] of "the basal
    amount is present": every treatment whose time parses moves the totals
    as its class says. *)
Definition app_insulin_rule {RT : Runtime} (counts : option float -> bool) : Prop :=
  forall entries tot t dt,
    instant_of (get_str (created_at t)) = Some dt ->
    adds (classify counts (app_foods t)
            (App.basal_amount (App.parse_notes (get_str (notes t))))
            (get_str (insulin t)))
         (App.sum_basal tot) (App.sum_insulin tot)
         (App.sum_basal (fst (App.process_treatment entries tot t)))
         (App.sum_insulin (fst (App.process_treatment entries tot t))).

(** The insulin rule in [nightscout_web_app.py]. *)
Definition web_insulin_rule {RT : Runtime} (counts : option float -> bool) : Prop :=
  forall entries tot t tot' row,
    Web.prepare_row entries tot t = Some (tot', row) ->
    adds (classify counts (web_foods_of t)
            (web_basal (Web.parse_notes (get_str (notes t))))
            (get_str (insulin t)))
         (Web.sum_basal tot) (Web.sum_insulin tot)
         (Web.sum_basal tot') (Web.sum_insulin tot').

(** A basal note with the amount zero, logged with five units of insulin. *)
Definition zero_basal_treatment : Treatment :=
  {| created_at := Some "2024-01-15T12:00:00Z"; notes := Some "Tore 0";
     carbs := None; insulin := Some "5"; glucose := None |}.

(** A basal note of two units, logged with five units of insulin. *)
Definition basal_treatment : Treatment :=
  {| created_at := Some "2024-01-15T12:00:00Z"; notes := Some "Tore 2.0";
     carbs := None; insulin := Some "5"; glucose := None |}.

(** *** The daily ratio *)




(** The example of the specification: 45 grams and 3 units. *)
Definition meal_treatment : Treatment :=
  {| created_at := Some "2024-01-15T12:00:00Z"; notes := None;
     carbs := Some "45"; insulin := Some "3"; glucose := None |}.


(** *** The automatic snack item *)

(** The carbohydrate value lies in the closed interval from 1 to 3. *)
Definition snack_range {RT : Runtime} (v : float) : bool :=
  fleb (float_of_int 1) v && fleb v (float_of_int 3).

(** Some food item contains the snack marker. *)
Definition has_snack_item (fs : list string) : bool :=
  existsb (contains "補食") fs.

(** The food items of the parsed note in each implementation. *)
Definition app_note_foods {RT : Runtime} (t : Treatment) : list string :=
  App.foods (App.parse_notes (get_str (notes t))).
Definition web_note_foods {RT : Runtime} (t : Treatment) : list string :=
  web_foods (Web.parse_notes (get_str (notes t))).

(** Two grams of carbohydrate with a note of two lines, none of which
    contains the snack marker while the two put together spell it. *)
Definition split_marker_treatment : Treatment :=
  {| created_at := Some "2024-01-15T12:00:00Z";
     notes := Some ("補" ++ nl ++ "食");
     carbs := Some "2"; insulin := None; glucose := None |}.

(** Two grams and ten grams of carbohydrate with a plain note. *)
Definition two_gram_treatment : Treatment :=
  {| created_at := Some "2024-01-15T12:00:00Z"; notes := Some "juice";
     carbs := Some "2"; insulin := None; glucose := None |}.
Definition ten_gram_treatment : Treatment :=
  {| created_at := Some "2024-01-15T12:00:00Z"; notes := Some "juice";
     carbs := Some "10"; insulin := None; glucose := None |}.

(** *** Matching a treatment with a reading *)

(** The time between a treatment at the instant [t] and the reading [x],
    exact, in microseconds. *)
Definition distance {RT : Runtime} (t : Z) (x : Entry) : option Z :=
  match instant_of (dateString x) with
  | Some u => Some (Z.abs (u - t))
  | None => None
  end.

(** Microseconds in the 900 seconds of the matching window. *)
Definition window : Z := 900 * 1000000.

(** The time of every reading can be read: its [dateString] parses and
    [astimezone] converts it. *)
Definition times_parse {RT : Runtime} (entries : list Entry) : bool :=
  forallb (fun e => match instant_of (dateString e) with
                    | Some _ => true
                    | None => false
                    end) entries.

(** The [dateString] of every reading parses. *)
Definition dates_parse {RT : Runtime} (entries : list Entry) : bool :=
  forallb (fun e => match parse_time (dateString e) with
                    | Some _ => true
                    | None => false
                    end) entries.


(** The time of the treatment can be read: its [created_at] parses and
    [astimezone] converts it. *)
Definition timed {RT : Runtime} (t : Treatment) : bool :=
  match instant_of (get_str (created_at t)) with
  | Some _ => true
  | None => false
  end.

(** The readings of the specification's example around a treatment at
    12:00:00 UTC: one 400 seconds before with value 120, one 1000 seconds
    after with value 140. *)
Definition near_entry : @Entry Py :=
  {| dateString := "2024-01-15T11:53:20Z"; sgv := Some 120;
     direction := None; delta := None |}.
Definition far_entry : @Entry Py :=
  {| dateString := "2024-01-15T12:16:40Z"; sgv := Some 140;
     direction := None; delta := None |}.
Definition noon_treatment : Treatment :=
  {| created_at := Some "2024-01-15T12:00:00Z"; notes := None;
     carbs := None; insulin := None; glucose := None |}.

(** *** Faults *)

(** A treatment without [created_at], and a reading whose [dateString] is
    not a time. *)
Definition untimed_treatment : Treatment :=
  {| created_at := None; notes := Some "memo"; carbs := None;
     insulin := None; glucose := None |}.
Definition broken_entry : @Entry Py :=
  {| dateString := "unknown"; sgv := Some 100;
     direction := None; delta := None |}.


(** ** Further statements about the code *)

(** The first token of a line parses as a float. *)
Definition first_token_parses {RT : Runtime} (line : string) : bool :=
  match split line with
  | tok :: _ => present (float_of_str tok)
  | [] => false
  end.

(** The parsed note of the web module with nothing set but food items. *)
Definition web_only_foods {RT : Runtime} (fs : list string) : Web.ParsedNote :=
  (None, None, None, fs, None).

(** The snack-tablet example of the specification, ["B\ntablet"], with the
    letter in lower case. *)
Definition tablet_note : string := "b" ++ nl ++ "tablet".

(** A snack-tablet note with a padded first line, two blank lines and a
    padded line. *)
Definition padded_tablet_note : string :=
  "B " ++ nl ++ nl ++ "  tablet " ++ nl ++ " " ++ nl ++ "tea".

(** An insulin-type note and a plain note, each with a blank line and a
    padded line. *)
Definition type_note : string := "f" ++ nl ++ "bread" ++ nl ++ nl ++ " milk ".
Definition fallback_note : string :=
  "toast and jam" ++ nl ++ " " ++ nl ++ " coffee ".

(** The shape of a parsed note: its type is unset, [N] or [F]; a predicted
    insulin comes with a ratio; a basal amount comes with no ratio, no
    predicted insulin, no type and the basal item at the head of the food
    items. *)
Definition well_formed_note {RT : Runtime} (c p : option float)
    (ty : option string) (fs : list string) (b : option float) : Prop :=
  (ty = None \/ ty = Some "N" \/ ty = Some "F")
  /\ (p <> None -> c <> None)
  /\ (b <> None ->
      c = None /\ p = None /\ ty = None
      /\ exists rest, fs = "基礎インスリン" :: rest).

(** Closes the cases of a note that the shape holds for at sight. *)
Ltac note_shape :=
  unfold well_formed_note; simpl;
  repeat split; try tauto; try congruence; eauto.


(** No text cell of the row is empty and no number cell holds an empty
    text. *)
Definition no_empty_cell {RT : Runtime} (row : Row) : Prop :=
  nonempty (row_time row) = true
  /\ nonempty (row_bg row) = true
  /\ row_cir row <> Txt ""
  /\ nonempty (row_carbs row) = true
  /\ row_predicted row <> Txt ""
  /\ nonempty (row_actual row) = true
  /\ nonempty (row_type row) = true
  /\ nonempty (row_food row) = true.

(** A day with a blank note line, a measured value and no reading. *)
Definition measured_treatment : Treatment :=
  {| created_at := Some "2024-01-15T22:30:00Z";
     notes := Some ("300 2" ++ nl ++ "  " ++ nl ++ "soup");
     carbs := Some "30"; insulin := None; glucose := Some "98" |}.

(** The measured value of a treatment, when it has one that is not empty. *)
Definition measured {RT : Runtime} (t : Treatment) : option string :=
  match glucose t with
  | Some g => if nonempty g then Some g else None
  | None => None
  end.

(** The cell [bg] of a treatment with the CGM text [cgm]: the CGM text and
    the measured value, the ones that exist, or the placeholder. *)
Definition bg_cell (cgm : string) (m : option string) : string :=
  match m with
  | Some g => if nonempty cgm then cgm ++ " / 実測:" ++ g else "実測:" ++ g
  | None => if nonempty cgm then cgm else "-"
  end.

(** The carbohydrate value of a treatment: its [carbs] text, when it is
    given and parses. *)
Definition carbs_value {RT : Runtime} (t : Treatment) : option float :=
  if nonempty (get_str (carbs t)) then float_of_str (get_str (carbs t))
  else None.


(** Two readings at the same distance from noon, ten minutes before and ten
    minutes after. *)
Definition before_entry : @Entry Py :=
  {| dateString := "2024-01-15T11:50:00Z"; sgv := Some 90;
     direction := None; delta := None |}.
Definition after_entry : @Entry Py :=
  {| dateString := "2024-01-15T12:10:00Z"; sgv := Some 180;
     direction := None; delta := None |}.

(** Noon UTC of that day, as [fromisoformat] reads
    ["2024-01-15T12:00:00+00:00"]. *)
Definition noon : datetime :=
  {| instant := 1705320000000000; aware := true |}.

(** A time two milliseconds after one reading and two milliseconds before
    another. *)
Definition two_ms : datetime :=
  {| instant := 1705320000002000; aware := true |}.
Definition zero_ms_entry : @Entry Py :=
  {| dateString := "2024-01-15T12:00:00.000Z"; sgv := Some 90;
     direction := None; delta := None |}.
Definition four_ms_entry : @Entry Py :=
  {| dateString := "2024-01-15T12:00:00.004Z"; sgv := Some 180;
     direction := None; delta := None |}.

(** Every element of [l] has a key, and [k] is below it: [k < kx] when
    [strict] is set, and otherwise not above it, that is not [kx < k]. *)
Definition all_above {RT : Runtime} {A : Type} (key : A -> option float)
    (strict : bool) (k : float) (l : list A) : Prop :=
  forall x, In x l ->
            exists kx, key x = Some kx
                       /\ if strict then fltb k kx = true
                          else fltb kx k = false.

(** The comparison [<] orders the keys of the elements of [l] the way it
    orders numbers: no key is below itself, [<] is transitive, and so is
    its negation. This is so of [float]s none of which is a NaN. *)
Definition ordered_keys {RT : Runtime} {A : Type} (key : A -> option float)
    (l : list A) : Prop :=
  forall x y z a b c,
    In x l -> In y l -> In z l ->
    key x = Some a -> key y = Some b -> key z = Some c ->
    fltb a a = false
    /\ (fltb a b = true -> fltb b c = true -> fltb a c = true)
    /\ (fltb a b = false -> fltb b c = false -> fltb a c = false).

(** The snack step of [app.py]: the food items after the carbohydrate
    block, for the carbohydrate text [carbs_str]. *)
Definition app_snack {RT : Runtime} (carbs_str : string) (fs : list string)
    : list string :=
  snd (App.count_carbs App.no_totals carbs_str fs).

(** The carbohydrate text is given and parses into the range from 1 to 3. *)
Definition carbs_value_in_range {RT : Runtime} (carbs_str : string) : bool :=
  if nonempty carbs_str then
    match float_of_str carbs_str with
    | Some v => snack_range v
    | None => false
    end
  else false.

(** The instant at [h] hours, [m] minutes, [s] seconds and [us]
    microseconds UTC of the day [d] of the epoch, in microseconds. *)
Definition clock_instant (d h m s us : Z) : Z :=
  (((d * 24 + h) * 60 + m) * 60 + s) * 1000000 + us.

(** The end of the last summer time of Japan, 1951-09-08T15:00Z. *)
Definition last_summer_end : Z := PyNum.utc_hour 1951 9 8 15.

(** A treatment at midnight UTC of a summer day of 1950. *)
Definition summer_treatment : Treatment :=
  {| created_at := Some "1950-07-01T00:00:00Z"; notes := None;
     carbs := Some "30"; insulin := None; glucose := None |}.

(** The codes of the arrow table. *)
Definition known_directions : list string :=
  [ "DoubleUp"; "SingleUp"; "FortyFiveUp"; "Flat"; "FortyFiveDown";
    "SingleDown"; "DoubleDown"; "NOT COMPUTABLE"; "RATE OUT OF RANGE" ].

(** ** [app.py]: class [NightscoutClient], the parts that do not touch the
    network *)

Module Client.

(** Drops the characters [c] a list starts with. *)
Fixpoint drop_char (c : ascii) (l : list ascii) : list ascii :=
  match l with
  | x :: l' => if Ascii.eqb x c then drop_char c l' else l
  | [] => []
  end.

(** [s.rstrip(c)] for one character [c]. *)
Definition rstrip (s : string) (c : ascii) : string :=
  string_of_list_ascii (rev (drop_char c (rev (list_ascii_of_string s)))).

(** The attributes [__init__] sets. *)
Record NightscoutClient := {
  headers : list (string * string);
  url : string
}.

(** [__init__], for the function [sha1_hex] that takes a text to the
    hexadecimal SHA-1 digest of its UTF-8 encoding; [secret] is [None] when
    the environment has no [API_SECRET]. *)
Definition init (sha1_hex : string -> string) (url0 : string)
    (secret : option string) : NightscoutClient :=
  {| headers :=
       match secret with
       | Some s =>
           if nonempty s then [("API-SECRET", sha1_hex s)] else []
       | None => []
       end;
     url := rstrip url0 "/" |}.

(** The two addresses [fetch_data] requests. *)
Definition entries_address (c : NightscoutClient) : string :=
  url c ++ "/api/v1/entries.json".
Definition treatments_address (c : NightscoutClient) : string :=
  url c ++ "/api/v1/treatments.json".

End Client.

(** [n] slashes. *)
Fixpoint slashes (n : nat) : string :=
  match n with
  | O => EmptyString
  | S k => String "/" (slashes k)
  end.

(** No white-space character starts anywhere in [s]. *)
Fixpoint narrow (s : string) : Prop :=
  match s with
  | EmptyString => True
  | String _ s' => space_width s = 0%nat /\ narrow s'
  end.

(** No white-space character starts in the characters [pre] when they are
    followed by [s]. *)
Fixpoint narrow_before (pre : list ascii) (s : string) : Prop :=
  match pre with
  | [] => True
  | _ :: pre' =>
      space_width (string_of_list_ascii pre ++ s) = 0%nat
      /\ narrow_before pre' s
  end.

(** The result of the web module's [parse_notes] as a note of [app.py]. *)
Definition as_app_note {RT : Runtime} (p : Web.ParsedNote) : App.ParsedNote :=
  {| App.cir := web_cir p; App.predicted_insulin := web_predicted p;
     App.insulin_type := web_type p; App.foods := web_foods p;
     App.basal_amount := web_basal p |}.




(** ** Properties *)

(** *** The order of text keys *)




Lemma compare_not_gt_trans (a b c : string) :
  String.compare a b <> Gt -> String.compare b c <> Gt ->
  String.compare a c <> Gt.
Proof.
  revert b c.
  induction a as [|x a IH]; intros [|y b] [|z c]; simpl; try congruence.
  unfold Ascii.compare.
  destruct (N.compare_spec (N_of_ascii x) (N_of_ascii y)) as [Hxy|Hxy|Hxy];
    destruct (N.compare_spec (N_of_ascii y) (N_of_ascii z)) as [Hyz|Hyz|Hyz];
    destruct (N.compare_spec (N_of_ascii x) (N_of_ascii z)) as [Hxz|Hxz|Hxz];
    try congruence; try lia.
  apply IH.
Qed.

Lemma leb_trans (a b c : string) :
  String.leb a b = true -> String.leb b c = true -> String.leb a c = true.
Proof.
  unfold String.leb. intros Hab Hbc.
  assert (H : String.compare a c <> Gt).
  { apply (compare_not_gt_trans a b c).
    - destruct (String.compare a b); congruence.
    - destruct (String.compare b c); congruence. }
  destruct (String.compare a c); congruence.
Qed.

Lemma leb_false_flip (a b : string) :
  String.leb a b = false -> String.leb b a = true.
Proof.
  intros H. destruct (String.leb_total a b) as [H'|H']; congruence.
Qed.

(** *** [sorted] is a stable sort *)

Section Sorting.

Context {A : Type} (key : A -> string).

Lemma insert_by_perm (x : A) (l : list A) :
  Permutation (insert_by key x l) (x :: l).
Proof.
  induction l as [|y l IH]; simpl; [reflexivity|].
  destruct (String.leb (key x) (key y)); [reflexivity|].
  rewrite IH. apply perm_swap.
Qed.

Lemma sorted_perm (l : list A) : Permutation (sorted key l) l.
Proof.
  induction l as [|x l IH]; simpl; [reflexivity|].
  unfold sorted in *. simpl. rewrite insert_by_perm. now constructor.
Qed.

Lemma insert_by_ascending (x : A) (l : list A) :
  ascending_by key l -> ascending_by key (insert_by key x l).
Proof.
  unfold ascending_by.
  induction l as [|y l IH]; intros Hs; simpl.
  - repeat constructor.
  - inversion Hs as [|? ? Hl Hy]; subst.
    destruct (String.leb (key x) (key y)) eqn:Hxy.
    + constructor; [assumption|].
      constructor; [assumption|].
      rewrite Forall_forall in Hy |- *. intros z Hz.
      eapply leb_trans; eauto.
    + constructor; [now apply IH|].
      rewrite Forall_forall in Hy |- *. intros z Hz.
      apply (Permutation_in _ (insert_by_perm x l)) in Hz.
      destruct Hz as [<-|Hz]; [now apply leb_false_flip | now apply Hy].
Qed.

Lemma sorted_ascending (l : list A) : ascending_by key (sorted key l).
Proof.
  induction l as [|x l IH]; [constructor|].
  apply insert_by_ascending, IH.
Qed.



End Sorting.

(** *** Order of processing (C9) *)

Lemma app_report_order {RT : Runtime} (entries : list Entry)
    (treatments : list Treatment) :
  chart_times (App.process_report_data entries treatments)
    = fst (chart (sorted dateString entries))
  /\ chart_bgs (App.process_report_data entries treatments)
    = snd (chart (sorted dateString entries))
  /\ table_data (App.process_report_data entries treatments)
    = snd (App.process_treatments entries App.no_totals
             (sorted created_key treatments)).
Proof.
  unfold App.process_report_data, created_key.
  destruct (App.process_treatments entries App.no_totals _) as [tot rows].
  repeat split.
Qed.

Lemma web_report_order {RT : Runtime} (date_str : string)
    (entries : list Entry) (treatments : list Treatment) (r : Report) :
  Web.prepare_report_data date_str entries treatments = Some r ->
  chart_times r = fst (chart (sorted dateString entries))
  /\ chart_bgs r = snd (chart (sorted dateString entries))
  /\ option_map snd
       (Web.prepare_rows entries Web.no_totals (sorted created_key treatments))
     = Some (table_data r).
Proof.
  unfold Web.prepare_report_data, created_key.
  destruct (Web.prepare_rows entries Web.no_totals _) as [[tot rows]|];
    [|discriminate].
  intros [= <-]. repeat split.
Qed.


(** C9 at its failing input: two readings, and two treatments, of the same
    morning written with different UTC offsets, the first at 01:00 UTC
    ([10:00+09:00]) and the second at 02:00 UTC. Both are valid ISO 8601
    timestamps. Sorting by the text puts the one at 02:00 UTC first in each
    list: the instants of the sorted lists do not ascend, the chart labels
    run backwards, and the rows of the table come out as 11:00 before
    10:00, in both implementations. The claim, and the comment above the
    call in [nightscout_web_app.py] ("sort the treatments
    chronologically"), say the order is that of the times. *)
Theorem C9_text_order_breaks_chronology :
  map dateString (sorted dateString offset_entries)
  = ["2024-01-15T02:00:00+00:00"; "2024-01-15T10:00:00+09:00"]
  /\ instants (sorted dateString offset_entries)
     = [1705284000000000; 1705280400000000]
  /\ chronological (instants (sorted dateString offset_entries)) = false
  /\ chart_times (App.process_report_data offset_entries [])
     = ["11:00"; "10:00"]
  /\ option_map chart_times (Web.prepare_report_data "" offset_entries [])
     = Some ["11:00"; "10:00"]
  /\ map created_key (sorted created_key offset_treatments)
     = ["2024-01-15T02:00:00+00:00"; "2024-01-15T10:00:00+09:00"]
  /\ map (fun t => instant_of (created_key t))
       (sorted created_key offset_treatments)
     = [Some 1705284000000000; Some 1705280400000000]
  /\ map (fun r => (row_time r, row_carbs r))
       (table_data (App.process_report_data [] offset_treatments))
     = [("11:00", "20g"); ("10:00", "10g")]
  /\ option_map (fun r => map (fun r => (row_time r, row_carbs r))
                           (table_data r))
       (Web.prepare_report_data "" [] offset_treatments)
     = Some [("11:00", "20g"); ("10:00", "10g")].
Proof. repeat split; reflexivity. Qed.


(** *** Average glucose (C8) *)







(** *** Basal records (C6) *)

Lemma filter_head {A : Type} (f : A -> bool) (l : list A) (x : A)
    (rest : list A) :
  filter f l = x :: rest ->
  exists skipped later,
    l = (skipped ++ x :: later)%list
    /\ Forall (fun y => f y = false) skipped
    /\ rest = filter f later.
Proof.
  induction l as [|y l IH]; simpl; [discriminate|].
  destruct (f y) eqn:Hy.
  - intros [= -> <-]. exists [], l. repeat split. constructor.
  - intros H. destruct (IH H) as (sk & la & -> & Hsk & ->).
    exists (y :: sk), la. repeat split. now constructor.
Qed.

Lemma app_note_lines_nonempty (notes first : string) (rest : list string) :
  App.note_lines notes = first :: rest -> nonempty notes = true.
Proof. destruct notes; [discriminate | reflexivity]. Qed.

Lemma app_parse_basal {RT : Runtime} (notes first marker amount : string)
    (rest more : list string) (x : float) :
  App.note_lines notes = first :: rest ->
  basal_line first = true ->
  split first = marker :: amount :: more ->
  float_of_str amount = Some x ->
  App.parse_notes notes
  = {| App.cir := None; App.predicted_insulin := None;
       App.insulin_type := None;
       App.foods := "基礎インスリン" :: rest;
       App.basal_amount := Some x |}.
Proof.
  intros Hl Hb Hs Hx. unfold App.parse_notes.
  rewrite (app_note_lines_nonempty _ _ _ Hl), Hl. simpl negb. cbv iota.
  unfold basal_line in Hb. rewrite Hb, Hs, Hx. reflexivity.
Qed.

Lemma web_parse_basal {RT : Runtime} (notes line0 marker amount : string)
    (rest more : list string) (x : float) :
  nonempty notes = true ->
  split_lines (strip notes) = line0 :: rest ->
  basal_line (strip line0) = true ->
  split (strip line0) = marker :: amount :: more ->
  float_of_str amount = Some x ->
  Web.parse_notes notes
  = (None, None, None,
     "基礎インスリン" :: filter nonempty (map strip rest), Some x).
Proof.
  intros Hn Hl Hb Hs Hx. unfold Web.parse_notes, Web.kept.
  rewrite Hn, Hl. simpl negb. cbv iota zeta.
  unfold basal_line in Hb. rewrite Hb, Hs, Hx. reflexivity.
Qed.

(** C6: a note whose first line starts with a basal marker and whose second
    token on that line parses as a float [x] yields [basal_amount = x], the
    basal-insulin item followed by the remaining lines as [foods], and
    neither ratio nor predicted insulin; so does ["Tore 2.0\nrice ball"],
    with 2.0 and [[marker; "rice ball"]]. In both implementations: the
    remaining lines are the lines after the first, each stripped, the ones
    left empty dropped. In [app.py] they are what follows the first
    non-blank line; in [nightscout_web_app.py], where the first line of the
    stripped note is never blank, they are the stripped lines after it that
    are not empty. *)
Theorem C6_basal_record (RT : Runtime) :
  (forall notes first marker amount rest more x,
     App.note_lines notes = first :: rest ->
     basal_line first = true ->
     split first = marker :: amount :: more ->
     float_of_str amount = Some x ->
     App.parse_notes notes
     = {| App.cir := None; App.predicted_insulin := None;
          App.insulin_type := None;
          App.foods := "基礎インスリン" :: rest;
          App.basal_amount := Some x |})
  /\ (forall notes line0 marker amount rest more x,
        nonempty notes = true ->
        split_lines (strip notes) = line0 :: rest ->
        basal_line (strip line0) = true ->
        split (strip line0) = marker :: amount :: more ->
        float_of_str amount = Some x ->
        Web.parse_notes notes
        = (None, None, None,
           "基礎インスリン" :: filter nonempty (map strip rest), Some x))
  /\ (forall notes first rest,
        App.note_lines notes = first :: rest ->
        exists blank later,
          map strip (split_lines (strip notes))
          = (blank ++ first :: later)%list
          /\ Forall (fun l => nonempty l = false) blank
          /\ rest = filter nonempty later)
  /\ App.parse_notes basal_note
     = app_note None None None ["基礎インスリン"; "rice ball"] (Some 2%float)
  /\ Web.parse_notes basal_note
     = web_note None None None ["基礎インスリン"; "rice ball"] (Some 2%float).
Proof.
  split; [|split; [|split; [|split]]].
  - intros. eapply app_parse_basal; eauto.
  - intros. eapply web_parse_basal; eauto.
  - intros notes first rest Hl. apply filter_head. exact Hl.
  - reflexivity.
  - reflexivity.
Qed.

(** C6 on ["Tore 2.0\nrice ball"], and on [padded_basal_note], the same
    note with a blank line and a padded line: the general statement gives
    the example, and the blank line is dropped in both implementations. *)
Lemma C6_basal_record_witness :
  App.parse_notes basal_note
  = app_note None None None ["基礎インスリン"; "rice ball"] (Some 2%float)
  /\ Web.parse_notes padded_basal_note
     = web_note None None None
         ("基礎インスリン" :: filter nonempty (map strip ["  "; " rice ball"]))
         (Some 2%float)
  /\ filter nonempty (map strip ["  "; " rice ball"]) = ["rice ball"]
  /\ App.parse_notes padded_basal_note
     = app_note None None None ["基礎インスリン"; "rice ball"] (Some 2%float).
Proof.
  split; [|split; [|split]].
  - apply (proj1 (C6_basal_record Py) basal_note "Tore 2.0" "Tore" "2.0"
             ["rice ball"] [] 2%float);
      reflexivity.
  - apply (proj1 (proj2 (C6_basal_record Py)) padded_basal_note "Tore 2.0 "
             "Tore" "2.0" ["  "; " rice ball"] [] 2%float);
      reflexivity.
  - reflexivity.
  - apply (proj1 (C6_basal_record Py) padded_basal_note "Tore 2.0" "Tore"
             "2.0" ["rice ball"] [] 2%float);
      reflexivity.
Defined.

(** *** Ratio records (C5) *)

Lemma ratio_line_tests (first_line : string) :
  ratio_line first_line = true ->
  (startswith first_line "Tore " || startswith first_line "トレ ") = false
  /\ String.eqb (upper first_line) "B" = false
  /\ (String.eqb (upper first_line) "N"
      || String.eqb (upper first_line) "F") = false.
Proof.
  unfold ratio_line, basal_line. intros H.
  apply andb_prop in H as [H H3]. apply andb_prop in H as [H1 H2].
  repeat split; now apply negb_true_iff.
Qed.

Lemma app_split_suffix_letter (second letter : string) :
  type_letter second = Some letter ->
  App.split_suffix second = (Some letter, drop_last second).
Proof.
  unfold type_letter, App.split_suffix.
  destruct (last_char second) as [c|]; [|discriminate].
  cbv zeta.
  destruct (String.eqb _ "N" || String.eqb _ "F"); [|discriminate].
  now intros [= <-].
Qed.

Lemma web_split_suffix_letter (second letter : string) :
  type_letter second = Some letter ->
  Web.split_suffix second = (Some letter, drop_last second).
Proof. exact (app_split_suffix_letter second letter). Qed.

Lemma app_ratio_rule_holds {RT : Runtime} : app_ratio_rule strip_cir_app.
Proof.
  intros notes first rest tok second more r letter Hl Hr Hs Hf Ht.
  destruct (ratio_line_tests _ Hr) as (H1 & H2 & H3).
  unfold App.parse_notes.
  rewrite (app_note_lines_nonempty _ _ _ Hl), Hl. simpl negb. cbv iota.
  rewrite H1, H2, H3.
  change (App.test_line first) with (strip (strip_cir_app first)).
  rewrite Hs. cbv zeta. rewrite Hf. simpl.
  rewrite (app_split_suffix_letter _ _ Ht). auto.
Qed.

Lemma web_ratio_rule_holds {RT : Runtime} : web_ratio_rule strip_cir_web.
Proof.
  intros notes line0 rest tok second more r letter Hn Hl Hr Hs Hf Ht.
  destruct (ratio_line_tests _ Hr) as (H1 & H2 & H3).
  unfold Web.parse_notes.
  rewrite Hn, Hl. simpl negb. cbv iota zeta.
  rewrite H1, H2, H3.
  change (Web.test_line (strip line0)) with (strip (strip_cir_web (strip line0))).
  rewrite Hs, Hf. simpl.
  rewrite (web_split_suffix_letter _ _ Ht). auto.
Qed.

(** C5, as the code has it: the ratio rule holds when "cir" is stripped the
    way each implementation strips it, by removing the spellings [cir] and
    [CIR] ([app.py]) or [cir], [CIR] and [Cir] ([nightscout_web_app.py]);
    and ["300 4.5N"] parses to ratio 300.0, predicted insulin 4.5 and
    insulin type [N] in both. *)
Theorem C5_ratio_record (RT : Runtime) :
  app_ratio_rule strip_cir_app
  /\ web_ratio_rule strip_cir_web
  /\ App.parse_notes "300 4.5N"
     = app_note (Some 300%float) (Some 4.5%float) (Some "N") [] None
  /\ Web.parse_notes "300 4.5N"
     = web_note (Some 300%float) (Some 4.5%float) (Some "N") [] None.
Proof.
  split; [apply app_ratio_rule_holds|].
  split; [apply web_ratio_rule_holds|].
  split; reflexivity.
Qed.

(** C5 as stated fails: in ["cIr 300 4.5N"] the first token left after a
    case-insensitive removal of "cir" is [300] and the second ends with
    [N], yet neither implementation removes [cIr], and both return the
    whole line as a food item with no ratio, type or predicted insulin. *)
Lemma C5_mixed_case_cir_is_not_stripped :
  ~ app_ratio_rule (RT := Py) strip_cir_any_case
  /\ ~ web_ratio_rule (RT := Py) strip_cir_any_case
  /\ App.parse_notes "cIr 300 4.5N"
     = app_note None None None ["cIr 300 4.5N"] None
  /\ Web.parse_notes "cIr 300 4.5N"
     = web_note None None None ["cIr 300 4.5N"] None.
Proof.
  split; [|split; [|split; reflexivity]].
  - intros H.
    destruct (H "cIr 300 4.5N" "cIr 300 4.5N" [] "300" "4.5N" []
                300%float "N") as [Hc _];
      try (reflexivity).
    vm_compute in Hc. discriminate.
  - intros H.
    destruct (H "cIr 300 4.5N" "cIr 300 4.5N" [] "300" "4.5N" []
                300%float "N") as [Hc _];
      try (reflexivity).
    vm_compute in Hc. discriminate.
Qed.

(** C5 on ["cir 250 3f"]: the rule gives ratio 250.0, type [F] and
    predicted insulin 3.0. *)
Lemma C5_ratio_record_witness :
  App.cir (App.parse_notes (RT := Py) "cir 250 3f") = Some 250%float
  /\ App.insulin_type (App.parse_notes (RT := Py) "cir 250 3f") = Some "F"
  /\ App.predicted_insulin (App.parse_notes (RT := Py) "cir 250 3f")
     = float_of_str (drop_last "3f").
Proof.
  apply (proj1 (C5_ratio_record Py) "cir 250 3f" "cir 250 3f" [] "250" "3f" []
           250%float "F");
    reflexivity.
Defined.

(** *** Zero and absent numbers in the table (C10) *)

Lemma num_or_dash_zero {RT : Runtime} (x : option float) :
  zero_or_absent x = true -> num_or_dash x = Txt "-".
Proof.
  destruct x as [v|]; simpl; [|reflexivity].
  unfold truthy. now intros ->.
Qed.

Lemma app_row_cells {RT : Runtime} (entries : list Entry) (tot tot' : App.Totals)
    (t : Treatment) (row : Row) :
  App.process_treatment entries tot t = (tot', Some row) ->
  row_cir row = num_or_dash (App.cir (App.parse_notes (get_str (notes t))))
  /\ row_predicted row
     = num_or_dash (App.predicted_insulin (App.parse_notes (get_str (notes t)))).
Proof.
  unfold App.process_treatment.
  destruct (moment_of _) as [dt|]; [|discriminate].
  destruct (App.count_carbs _ _ _) as [tot1 fs].
  destruct (App.cgm_display _ _) as [cgm|]; [|discriminate].
  intros [= _ <-]. split; reflexivity.
Qed.

Lemma web_row_cells {RT : Runtime} (entries : list Entry) (tot tot' : Web.Totals)
    (t : Treatment) (row : Row) :
  Web.prepare_row entries tot t = Some (tot', row) ->
  row_cir row = num_or_dash (web_cir (Web.parse_notes (get_str (notes t))))
  /\ row_predicted row
     = num_or_dash (web_predicted (Web.parse_notes (get_str (notes t)))).
Proof.
  unfold Web.prepare_row.
  destruct (instant_of _) as [dt|]; [|discriminate].
  destruct (Web.parse_notes _) as [[[[c p] ty] fs] b].
  intros [= _ <-]. split; reflexivity.
Qed.

Lemma app_rows_origin {RT : Runtime} (entries : list Entry)
    (treatments : list Treatment) (tot : App.Totals) (row : Row) :
  In row (snd (App.process_treatments entries tot treatments)) ->
  exists t tot0 tot1,
    In t treatments
    /\ App.process_treatment entries tot0 t = (tot1, Some row).
Proof.
  revert tot.
  induction treatments as [|t ts IH]; intros tot; simpl; [tauto|].
  destruct (App.process_treatment entries tot t) as [tot' r] eqn:E.
  specialize (IH tot').
  destruct (App.process_treatments entries tot' ts) as [final rows].
  simpl in *. intros H.
  assert (Hcase : (exists r0, r = Some r0 /\ r0 = row) \/ In row rows).
  { destruct r as [r0|]; [destruct H as [H|H]; eauto | auto]. }
  destruct Hcase as [(r0 & -> & ->)|Hin].
  - exists t, tot, tot'. auto.
  - destruct (IH Hin) as (t' & a & b & Ht & Hp). exists t', a, b. auto.
Qed.

Lemma web_rows_origin {RT : Runtime} (entries : list Entry)
    (treatments : list Treatment) (tot final : Web.Totals)
    (rows : list Row) (row : Row) :
  Web.prepare_rows entries tot treatments = Some (final, rows) ->
  In row rows ->
  exists t tot0 tot1,
    In t treatments /\ Web.prepare_row entries tot0 t = Some (tot1, row).
Proof.
  revert tot final rows.
  induction treatments as [|t ts IH]; intros tot final rows; simpl.
  - intros [= _ <-] [].
  - destruct (Web.prepare_row entries tot t) as [[tot' r]|] eqn:E;
      [|discriminate].
    destruct (Web.prepare_rows entries tot' ts) as [[f rs]|] eqn:E';
      [|discriminate].
    intros [= _ <-] [<-|Hin].
    + exists t, tot, tot'. auto.
    + destruct (IH _ _ _ E' Hin) as (t' & a & b & Ht & Hp).
      exists t', a, b. auto.
Qed.

(** C10: every row of the emitted table comes from a treatment of the
    input, and where the parsed note's ratio is zero or missing the row's
    [cir] is the placeholder ["-"], and likewise for the predicted insulin:
    a parsed zero and a missing value are rendered alike. In both
    implementations. *)
Theorem C10_zero_rendered_as_absent (RT : Runtime) (entries : list Entry)
    (treatments : list Treatment) :
  (forall row,
     In row (table_data (App.process_report_data entries treatments)) ->
     exists t tot0 tot1,
       In t treatments
       /\ App.process_treatment entries tot0 t = (tot1, Some row)
       /\ (zero_or_absent (App.cir (App.parse_notes (get_str (notes t)))) = true ->
           row_cir row = Txt "-")
       /\ (zero_or_absent
             (App.predicted_insulin (App.parse_notes (get_str (notes t)))) = true ->
           row_predicted row = Txt "-"))
  /\ (forall date_str r row,
        Web.prepare_report_data date_str entries treatments = Some r ->
        In row (table_data r) ->
        exists t tot0 tot1,
          In t treatments
          /\ Web.prepare_row entries tot0 t = Some (tot1, row)
          /\ (zero_or_absent (web_cir (Web.parse_notes (get_str (notes t)))) = true ->
              row_cir row = Txt "-")
          /\ (zero_or_absent
                (web_predicted (Web.parse_notes (get_str (notes t)))) = true ->
              row_predicted row = Txt "-")).
Proof.
  split.
  - intros row Hin.
    destruct (app_report_order entries treatments) as (_ & _ & Ht).
    rewrite Ht in Hin.
    destruct (app_rows_origin _ _ _ _ Hin) as (t & a & b & Hm & Hp).
    exists t, a, b.
    destruct (app_row_cells _ _ _ _ _ Hp) as [Hc Hq].
    split; [eapply Permutation_in; [apply sorted_perm | exact Hm]|].
    split; [exact Hp|].
    rewrite Hc, Hq. split; apply num_or_dash_zero.
  - intros date_str r row Hr Hin.
    destruct (web_report_order _ _ _ _ Hr) as (_ & _ & Ht).
    destruct (Web.prepare_rows entries Web.no_totals _)
      as [[final rows]|] eqn:E; [|discriminate].
    injection Ht as Ht. simpl in Ht. subst rows.
    destruct (web_rows_origin _ _ _ _ _ _ E Hin) as (t & a & b & Hm & Hp).
    exists t, a, b.
    destruct (web_row_cells _ _ _ _ _ Hp) as [Hc Hq].
    split; [eapply Permutation_in; [apply sorted_perm | exact Hm]|].
    split; [exact Hp|].
    rewrite Hc, Hq. split; apply num_or_dash_zero.
Qed.

(** C10 on the note ["0 0.0N"]: the ratio and the predicted insulin parse
    to zero and the only row of the table shows ["-"] for both. *)
Lemma C10_zero_rendered_as_absent_witness :
  App.parse_notes "0 0.0N"
  = app_note (Some 0%float) (Some 0%float) (Some "N") [] None
  /\ forall row,
       In row (table_data (App.process_report_data [] [zero_treatment])) ->
       row_cir row = Txt "-" /\ row_predicted row = Txt "-".
Proof.
  split; [reflexivity|].
  intros row Hin.
  destruct (proj1 (C10_zero_rendered_as_absent Py [] [zero_treatment]) row Hin)
    as (t & a & b & [<-|[]] & _ & Hc & Hq).
  split; [apply Hc | apply Hq]; reflexivity.
Defined.

(** *** Basal and bolus insulin (C3) *)

Lemma app_count_carbs_foods {RT : Runtime} (tot tot0 : App.Totals)
    (carbs_str : string) (fs : list string) :
  snd (App.count_carbs tot carbs_str fs) = snd (App.count_carbs tot0 carbs_str fs).
Proof.
  unfold App.count_carbs.
  destruct (nonempty carbs_str); [|reflexivity].
  destruct (float_of_str carbs_str); reflexivity.
Qed.

Lemma app_count_carbs_insulin {RT : Runtime} (tot : App.Totals)
    (carbs_str : string) (fs : list string) :
  App.sum_basal (fst (App.count_carbs tot carbs_str fs)) = App.sum_basal tot
  /\ App.sum_insulin (fst (App.count_carbs tot carbs_str fs))
     = App.sum_insulin tot.
Proof.
  unfold App.count_carbs.
  destruct (nonempty carbs_str); [|auto].
  destruct (float_of_str carbs_str); auto.
Qed.

Lemma app_count_insulin_adds {RT : Runtime} (tot : App.Totals)
    (fs : list string) (basal : option float) (insulin_str : string) :
  adds (classify truthy_opt fs basal insulin_str)
       (App.sum_basal tot) (App.sum_insulin tot)
       (App.sum_basal (App.count_insulin tot fs basal insulin_str))
       (App.sum_insulin (App.count_insulin tot fs basal insulin_str)).
Proof.
  unfold App.count_insulin, classify, App.is_basal.
  destruct basal as [a|].
  - destruct (existsb _ fs && truthy_opt (Some a)); simpl; [auto|].
    destruct (nonempty insulin_str); simpl; [|auto].
    destruct (float_of_str insulin_str); simpl; auto.
  - rewrite andb_false_r.
    destruct (nonempty insulin_str); simpl; [|auto].
    destruct (float_of_str insulin_str); simpl; auto.
Qed.

Lemma web_count_insulin_adds {RT : Runtime} (tot : Web.Totals)
    (fs : list string) (basal : option float) (insulin_str : string) :
  adds (classify truthy_opt fs basal insulin_str)
       (Web.sum_basal tot) (Web.sum_insulin tot)
       (Web.sum_basal (Web.count_insulin tot fs basal insulin_str))
       (Web.sum_insulin (Web.count_insulin tot fs basal insulin_str)).
Proof.
  unfold Web.count_insulin, classify, Web.is_basal.
  destruct basal as [a|].
  - destruct (existsb _ fs && truthy_opt (Some a)); simpl; [auto|].
    destruct (nonempty insulin_str); simpl; [|auto].
    destruct (float_of_str insulin_str); simpl; auto.
  - rewrite andb_false_r.
    destruct (nonempty insulin_str); simpl; [|auto].
    destruct (float_of_str insulin_str); simpl; auto.
Qed.

Lemma web_count_carbs_insulin {RT : Runtime} (tot : Web.Totals)
    (carbs_str : string) :
  Web.sum_basal (Web.count_carbs tot carbs_str) = Web.sum_basal tot
  /\ Web.sum_insulin (Web.count_carbs tot carbs_str) = Web.sum_insulin tot.
Proof.
  unfold Web.count_carbs.
  destruct (nonempty carbs_str); [|auto].
  destruct (float_of_str carbs_str); auto.
Qed.

(** In [nightscout_web_app.py] a treatment whose time parses gives its
    row, whatever the readings are. *)
Lemma web_timed_row {RT : Runtime} (entries : list Entry) (tot : Web.Totals)
    (t : Treatment) :
  timed t = true ->
  exists tot' row, Web.prepare_row entries tot t = Some (tot', row).
Proof.
  unfold timed, Web.prepare_row.
  destruct (instant_of _) as [dt|]; [intros _ | discriminate].
  destruct (Web.parse_notes _) as [[[[c p] ty] fs] b]. eauto.
Qed.

Lemma app_insulin_rule_holds {RT : Runtime} : app_insulin_rule truthy_opt.
Proof.
  intros entries tot t dt Hdt.
  unfold App.process_treatment, app_foods. unfold instant_of in Hdt.
  destruct (moment_of _) as [m|]; [clear Hdt | discriminate].
  destruct (App.count_carbs tot _ _) as [tot1 fs] eqn:E.
  rewrite (app_count_carbs_foods App.no_totals tot), E. simpl snd.
  pose proof (app_count_carbs_insulin tot (get_str (carbs t))
                (App.foods (App.parse_notes (get_str (notes t))))) as [Hb Hi].
  rewrite E in Hb, Hi. simpl in Hb, Hi. rewrite <- Hb, <- Hi.
  destruct (App.cgm_display entries m); simpl fst;
    apply app_count_insulin_adds.
Qed.

Lemma web_insulin_rule_holds {RT : Runtime} : web_insulin_rule truthy_opt.
Proof.
  intros entries tot t tot' row.
  unfold Web.prepare_row, web_foods_of.
  destruct (instant_of _) as [dt|]; [|discriminate].
  destruct (Web.parse_notes _) as [[[[c p] ty] fs] b].
  intros [= <- _]. simpl web_foods. simpl web_basal.
  destruct (web_count_carbs_insulin
              (Web.count_insulin tot (Web.auto_snack (get_str (carbs t)) fs) b
                 (get_str (insulin t))) (get_str (carbs t))) as [Hb Hi].
  rewrite Hb, Hi. apply web_count_insulin_adds.
Qed.

(** C3, as the code has it: a treatment is basal when its food items hold
    the basal marker and its basal amount is present and not zero (the
    code tests the amount's truth value), and then only [basal_insulin]
    grows, by that amount; otherwise it is bolus when its insulin text is
    given and parses, and then only [total_insulin] grows; otherwise it is
    neither and both totals stay. No treatment adds to both. In both
    implementations. *)
Theorem C3_basal_or_bolus (RT : Runtime) :
  app_insulin_rule truthy_opt /\ web_insulin_rule truthy_opt.
Proof. split; [apply app_insulin_rule_holds | apply web_insulin_rule_holds]. Qed.

(** C3 as stated fails: the note ["Tore 0"] holds the basal marker and a
    basal amount that is present (0.0), so the treatment should be basal
    and leave [total_insulin] alone; both implementations add its five
    units of insulin to [total_insulin]. *)
Lemma C3_zero_basal_counts_as_bolus :
  ~ app_insulin_rule (RT := Py) present
  /\ ~ web_insulin_rule (RT := Py) present
  /\ App.basal_amount (App.parse_notes (RT := Py) "Tore 0") = Some 0%float
  /\ App.foods (App.parse_notes (RT := Py) "Tore 0") = ["基礎インスリン"]
  /\ App.sum_insulin
       (fst (App.process_treatment (RT := Py) [] App.no_totals
               zero_basal_treatment)) = 5%float
  /\ option_map (fun r => Web.sum_insulin (fst r))
       (Web.prepare_row (RT := Py) [] Web.no_totals zero_basal_treatment)
     = Some 5%float.
Proof.
  split; [|split; [|repeat split; reflexivity]].
  - intros H.
    specialize (H [] App.no_totals zero_basal_treatment
                  1705320000000000 eq_refl).
    vm_compute in H. destruct H as [_ H].
    apply (f_equal (fun x => PrimFloat.eqb x 0%float)) in H.
    vm_compute in H. discriminate.
  - intros H.
    destruct (web_timed_row (RT := Py) [] Web.no_totals zero_basal_treatment
                eq_refl) as (tot' & row & E).
    pose proof (H [] Web.no_totals zero_basal_treatment tot' row E) as H1.
    pose proof (web_insulin_rule_holds [] Web.no_totals zero_basal_treatment
                  tot' row E) as H2.
    change (classify present (web_foods_of zero_basal_treatment)
              (web_basal (Web.parse_notes (get_str (notes zero_basal_treatment))))
              (get_str (insulin zero_basal_treatment)))
      with (Basal (RT := Py) 0%float) in H1.
    change (classify truthy_opt (web_foods_of zero_basal_treatment)
              (web_basal (Web.parse_notes (get_str (notes zero_basal_treatment))))
              (get_str (insulin zero_basal_treatment)))
      with (Bolus (RT := Py) 5%float) in H2.
    destruct H1 as [_ H1]. destruct H2 as [_ H2]. rewrite H2 in H1.
    apply (f_equal (fun x => PrimFloat.eqb x 0%float)) in H1.
    vm_compute in H1. discriminate.
Qed.

(** C3 on the note ["Tore 2.0"] logged with five units of insulin: the
    treatment is basal, [basal_insulin] grows by 2.0 and [total_insulin]
    stays. *)
Lemma C3_basal_or_bolus_witness :
  adds (RT := Py) (Basal 2%float) 0%float 0%float
    (App.sum_basal (fst (App.process_treatment [] App.no_totals basal_treatment)))
    (App.sum_insulin (fst (App.process_treatment [] App.no_totals basal_treatment))).
Proof.
  exact (proj1 (C3_basal_or_bolus Py) [] App.no_totals basal_treatment
           1705320000000000 eq_refl).
Defined.

(** *** The daily ratio (C4) *)







(** *** The automatic snack item (C7) *)

(** In [app.py] the rule holds as the specification states it: with a
    carbohydrate text that parses into the range and no food item holding
    the marker, the snack item is put once in front of the food items; with
    one that parses outside the range, or does not parse, they are kept. *)
Lemma app_auto_snack {RT : Runtime} (t : Treatment) :
  (forall v,
     nonempty (get_str (carbs t)) = true ->
     float_of_str (get_str (carbs t)) = Some v ->
     snack_range v = true ->
     has_snack_item (app_note_foods t) = false ->
     app_foods t = "補食" :: app_note_foods t)
  /\ (forall v,
        float_of_str (get_str (carbs t)) = Some v ->
        snack_range v = false ->
        app_foods t = app_note_foods t)
  /\ (float_of_str (get_str (carbs t)) = None ->
      app_foods t = app_note_foods t).
Proof.
  unfold app_foods, app_note_foods, App.count_carbs, snack_range, has_snack_item.
  repeat split.
  - intros v Hn Hv Hr Hs. now rewrite Hn, Hv, Hr, Hs.
  - intros v Hv Hr. rewrite Hv, Hr. now destruct (nonempty _).
  - intros Hv. rewrite Hv. now destruct (nonempty _).
Qed.

(** In [nightscout_web_app.py] the snack item is put in front when no food
    item is the glucose-snack item and the food items put together do not
    contain the marker. *)
Lemma web_auto_snack {RT : Runtime} (t : Treatment) :
  (forall v,
     nonempty (get_str (carbs t)) = true ->
     float_of_str (get_str (carbs t)) = Some v ->
     snack_range v = true ->
     existsb (String.eqb "ぶどう糖補食") (web_note_foods t) = false ->
     contains "補食" (join "" (web_note_foods t)) = false ->
     web_foods_of t = "補食" :: web_note_foods t)
  /\ (forall v,
        float_of_str (get_str (carbs t)) = Some v ->
        snack_range v = false ->
        web_foods_of t = web_note_foods t)
  /\ (float_of_str (get_str (carbs t)) = None ->
      web_foods_of t = web_note_foods t).
Proof.
  unfold web_foods_of, web_note_foods, Web.auto_snack, snack_range.
  repeat split.
  - intros v Hn Hv Hr Hg Hs. now rewrite Hn, Hv, Hr, Hg, Hs.
  - intros v Hv Hr. rewrite Hv, Hr. now destruct (nonempty _).
  - intros Hv. rewrite Hv. now destruct (nonempty _).
Qed.

(** C7 at a treatment of 2 grams whose note has the lines [補] and [食]:
    the carbohydrate text parses to 2.0, inside the range, and no food item
    contains the marker, so the snack item is due. [app.py] puts it in
    front; [nightscout_web_app.py] looks for the marker in the food items
    put together, finds it across the two, and adds nothing. With a plain
    note both add it at 2 grams and neither does at 10 grams. *)
Theorem C7_web_snack_test_joins_items :
  @float_of_str Py (get_str (carbs split_marker_treatment)) = Some 2%float
  /\ snack_range (RT := Py) 2%float = true
  /\ web_note_foods (RT := Py) split_marker_treatment = ["補"; "食"]
  /\ has_snack_item (web_note_foods (RT := Py) split_marker_treatment) = false
  /\ app_foods (RT := Py) split_marker_treatment = ["補食"; "補"; "食"]
  /\ web_foods_of (RT := Py) split_marker_treatment = ["補"; "食"]
  /\ option_map (fun r => map row_food (table_data r))
       (Web.prepare_report_data (RT := Py) "" [] [split_marker_treatment])
     = Some ["補, 食"]
  /\ app_foods (RT := Py) two_gram_treatment = ["補食"; "juice"]
  /\ web_foods_of (RT := Py) two_gram_treatment = ["補食"; "juice"]
  /\ app_foods (RT := Py) ten_gram_treatment = ["juice"]
  /\ web_foods_of (RT := Py) ten_gram_treatment = ["juice"].
Proof. repeat split; reflexivity. Qed.

(** *** The closest reading (C1) *)

Lemma instant_of_moment {RT : Runtime} (s : string) (t : Z) :
  instant_of s = Some t ->
  exists dt, moment_of s = Some dt /\ instant dt = t
             /\ parse_time s = Some dt.
Proof.
  unfold instant_of, moment_of.
  destruct (parse_time s) as [dt|]; [|discriminate].
  destruct (astimezone_JST (instant dt)); [|discriminate].
  intros [= <-]. eauto.
Qed.

Section Minimum.

Context {RT : Runtime} {A : Type} (key : A -> option float).

Lemma ordered_keys_incl (l l' : list A) :
  incl l l' -> ordered_keys key l' -> ordered_keys key l.
Proof.
  intros Hi Ho x y z a b c Hx Hy Hz. apply Ho; apply Hi; assumption.
Qed.

Lemma all_above_cons (strict : bool) (k kx : float) (x : A) (l : list A) :
  key x = Some kx ->
  (if strict then fltb k kx = true else fltb kx k = false) ->
  all_above key strict k l -> all_above key strict k (x :: l).
Proof.
  intros Hx Hk Hl y [<-|Hy]; [exists kx; auto | auto].
Qed.

(** Where [<] orders the keys, a key strictly below another is not above
    it. *)
Lemma all_above_strict (k : float) (m : A) (l all : list A) :
  ordered_keys key all -> In m all -> incl l all -> key m = Some k ->
  all_above key true k l -> all_above key false k l.
Proof.
  intros Ho Hm Hi Hk Hl y Hy. destruct (Hl y Hy) as (ky & Hky & Hlt).
  exists ky. split; [assumption|].
  destruct (fltb ky k) eqn:E; [|reflexivity].
  destruct (Ho m y m k ky k Hm (Hi y Hy) Hm Hk Hky Hk) as (Hirr & Htr & _).
  rewrite (Htr Hlt E) in Hirr. discriminate.
Qed.

Lemma min_from_first (l : list A) (best : A) (best_key : float) (m : A) :
  ordered_keys key (best :: l) ->
  key best = Some best_key ->
  min_from key best best_key l = Some m ->
  exists k,
    key m = Some k
    /\ ((m = best /\ k = best_key /\ all_above key false best_key l)
        \/ (exists l1 l2,
              l = (l1 ++ m :: l2)%list /\ fltb k best_key = true
              /\ all_above key true k l1 /\ all_above key false k l2)).
Proof.
  revert best best_key.
  induction l as [|x l IH]; intros best bk Ho Hb; simpl.
  - intros [= <-]. exists bk. split; [assumption|]. left.
    repeat split. intros x [].
  - destruct (key x) as [kx|] eqn:Hx; [|discriminate].
    destruct (fltb kx bk) eqn:Hlt; intros Hm.
    + assert (Ho' : ordered_keys key (x :: l)).
      { apply (ordered_keys_incl _ _ (incl_tl best (incl_refl _)) Ho). }
      destruct (IH x kx Ho' Hx Hm) as (k & Hk & [(-> & -> & Hall)|Hdec]).
      * exists kx. split; [assumption|]. right. exists [], l.
        repeat split; [exact Hlt | intros y [] | exact Hall].
      * destruct Hdec as (l1 & l2 & -> & Hkk & H1 & H2).
        exists k. split; [assumption|]. right. exists (x :: l1), l2.
        assert (Hmi : In m (best :: x :: (l1 ++ m :: l2)%list)).
        { right. right. apply in_or_app. right. now left. }
        destruct (Ho m x best k kx bk Hmi (or_intror (or_introl eq_refl))
                    (or_introl eq_refl) Hk Hx Hb) as (_ & Htr & _).
        repeat split; [exact (Htr Hkk Hlt) | | exact H2].
        apply (all_above_cons true k kx); auto.
    + assert (Ho' : ordered_keys key (best :: l)).
      { apply (ordered_keys_incl (best :: l) (best :: x :: l)); [|exact Ho].
        intros y [<-|Hy]; [now left | right; now right]. }
      destruct (IH best bk Ho' Hb Hm) as (k & Hk & [(-> & -> & Hall)|Hdec]).
      * exists bk. split; [assumption|]. left. repeat split.
        apply (all_above_cons false bk kx); auto.
      * destruct Hdec as (l1 & l2 & -> & Hkk & H1 & H2).
        exists k. split; [assumption|]. right. exists (x :: l1), l2.
        assert (Hmi : In m (best :: x :: (l1 ++ m :: l2)%list)).
        { right. right. apply in_or_app. right. now left. }
        destruct (Ho m x best k kx bk Hmi (or_intror (or_introl eq_refl))
                    (or_introl eq_refl) Hk Hx Hb) as (_ & _ & Hnt).
        repeat split; [exact Hkk | | exact H2].
        apply (all_above_cons true k kx); auto.
        destruct (fltb k kx) eqn:E; [reflexivity|].
        rewrite (Hnt eq_refl Hlt) in Hkk. discriminate.
Qed.

(** [min] keeps the first of the elements of smallest key: the keys before
    it are strictly larger, and no key after it is smaller. *)
Lemma py_min_first (l : list A) (m : A) :
  ordered_keys key l ->
  py_min key l = Some m ->
  exists k l1 l2,
    l = (l1 ++ m :: l2)%list /\ key m = Some k
    /\ all_above key true k l1 /\ all_above key false k l2.
Proof.
  destruct l as [|x l]; simpl; [discriminate|]. intros Ho.
  destruct (key x) as [kx|] eqn:Hx; [|discriminate].
  intros Hm.
  destruct (min_from_first l x kx m Ho Hx Hm)
    as (k & Hk & [(-> & -> & Hall)|(l1 & l2 & -> & Hkk & H1 & H2)]).
  - exists kx, [], l. repeat split; auto. intros y [].
  - exists k, (x :: l1), l2. repeat split; auto.
    apply (all_above_cons true k kx); auto.
Qed.

(** No element has a key smaller than the one [min] keeps. *)
Lemma py_min_spec (l : list A) (m : A) :
  ordered_keys key l ->
  py_min key l = Some m ->
  exists k, key m = Some k /\ In m l /\ all_above key false k l.
Proof.
  intros Ho Hm.
  destruct (py_min_first l m Ho Hm) as (k & l1 & l2 & -> & Hk & H1 & H2).
  assert (Hin : In m (l1 ++ m :: l2)%list)
    by (apply in_or_app; right; now left).
  exists k. split; [assumption|]. split; [exact Hin|].
  assert (H1' : all_above key false k l1).
  { apply (all_above_strict k m l1 (l1 ++ m :: l2)%list Ho Hin); auto.
    intros y Hy. apply in_or_app. now left. }
  intros y Hy. apply in_app_or in Hy as [Hy|[<-|Hy]]; auto.
  exists k. split; [assumption|].
  exact (proj1 (Ho m m m k k k Hin Hin Hin Hk Hk Hk)).
Qed.



Lemma min_from_total (l : list A) (best : A) (best_key : float) :
  (forall x, In x l -> key x <> None) ->
  exists m, min_from key best best_key l = Some m.
Proof.
  revert best best_key.
  induction l as [|x l IH]; intros best bk Hall; simpl; [eauto|].
  assert (Hl : forall y, In y l -> key y <> None)
    by (intros y Hy; apply Hall; now right).
  destruct (key x) as [kx|] eqn:Hx.
  - destruct (fltb kx bk); apply IH; exact Hl.
  - exfalso. apply (Hall x); [now left | exact Hx].
Qed.

Lemma py_min_total (l : list A) :
  l <> [] -> (forall x, In x l -> key x <> None) ->
  exists m, py_min key l = Some m.
Proof.
  destruct l as [|x l]; [congruence|]. intros _ Hall. simpl.
  destruct (key x) as [kx|] eqn:Hx.
  - apply min_from_total. intros y Hy. apply Hall. now right.
  - exfalso. apply (Hall x); [now left | exact Hx].
Qed.



End Minimum.

Lemma times_parse_moment {RT : Runtime} (entries : list Entry) (e : Entry) :
  times_parse entries = true -> In e entries ->
  exists dt, moment_of (dateString e) = Some dt
             /\ parse_time (dateString e) = Some dt.
Proof.
  unfold times_parse. rewrite forallb_forall. intros H He.
  specialize (H e He).
  destruct (instant_of (dateString e)) as [t|] eqn:E; [|discriminate].
  destruct (instant_of_moment _ _ E) as (dt & Hm & _ & Hp). eauto.
Qed.

(** A reading whose time can be read has a [dateString] that parses. *)
Lemma times_parse_dates {RT : Runtime} (entries : list Entry) :
  times_parse entries = true -> dates_parse entries = true.
Proof.
  intros H. unfold dates_parse. apply forallb_forall. intros e He.
  destruct (times_parse_moment entries e H He) as (dt & _ & Hp).
  now rewrite Hp.
Qed.

Lemma dates_parse_app_distance {RT : Runtime} (entries : list Entry)
    (t : datetime) :
  dates_parse entries = true ->
  forall e, In e entries -> App.distance t e <> None.
Proof.
  unfold dates_parse. rewrite forallb_forall. intros H e He.
  specialize (H e He). unfold App.distance.
  destruct (parse_time (dateString e)); discriminate.
Qed.

Lemma times_parse_web_distance {RT : Runtime} (entries : list Entry) (t : Z) :
  times_parse entries = true ->
  forall e, In e entries -> Web.distance t e <> None.
Proof.
  unfold times_parse. rewrite forallb_forall. intros H e He.
  specialize (H e He). unfold Web.distance.
  destruct (instant_of (dateString e)); discriminate.
Qed.


(** The correlator of [nightscout_web_app.py] keeps a reading of smallest
    key too, and uses it however far it is. *)
Lemma web_closest_reading {RT : Runtime} (entries : list Entry) (t : Z) :
  times_parse entries = true ->
  entries <> [] ->
  ordered_keys (Web.distance t) entries ->
  exists closest d,
    In closest entries
    /\ Web.distance t closest = Some d
    /\ all_above (Web.distance t) false d entries
    /\ Web.cgm_display entries t = Web.cgm_display [closest] t.
Proof.
  intros Hp Hne Ho.
  destruct (py_min_total (Web.distance t) entries Hne
              (times_parse_web_distance entries t Hp)) as [m Hm].
  destruct (py_min_spec _ _ _ Ho Hm) as (d & Hd & Hin & Hall).
  exists m, d. repeat split; auto.
  unfold Web.cgm_display. destruct entries as [|e l]; [congruence|].
  rewrite Hm. simpl. now rewrite Hd.
Qed.

(** C1 on the example of the specification, a treatment at 12:00:00 UTC
    with readings 400 seconds before (120) and 1000 seconds after (140).
    With both readings each implementation shows the closer one, 120. With
    the later reading alone, 1000 seconds away, [app.py] attaches no CGM
    value and the cell is ["-"]; [nightscout_web_app.py], which has no
    window, shows 140. *)
Theorem C1_web_has_no_window :
  distance 1705320000000000 far_entry = Some (1000 * 1000000)
  /\ (window <=? 1000 * 1000000) = true
  /\ map row_bg (table_data
       (App.process_report_data [near_entry; far_entry] [noon_treatment]))
     = ["120 "]
  /\ option_map (fun r => map row_bg (table_data r))
       (Web.prepare_report_data "" [near_entry; far_entry] [noon_treatment])
     = Some ["120"]
  /\ map row_bg (table_data
       (App.process_report_data [far_entry] [noon_treatment])) = ["-"]
  /\ option_map (fun r => map row_bg (table_data r))
       (Web.prepare_report_data "" [far_entry] [noon_treatment])
     = Some ["140"].
Proof. repeat split; reflexivity. Qed.

(** *** Faults while reading the records (C2) *)







(** C2 at its failing inputs. A treatment without [created_at] next to a
    meal of 45 grams: [app.py] skips the first and gives the row of the
    second; [nightscout_web_app.py] parses the time outside any [try] and
    the run ends with the exception, so the meal gives no row and no
    report exists. A reading whose [dateString] is not a time next to the
    same meal: [nightscout_web_app.py] gives the meal's row without CGM
    value; in [app.py] the search for the closest reading raises inside
    every row, so the table is empty although the meal's carbohydrates
    and insulin are already in the totals. *)
Theorem C2_faults_abort_or_empty_the_table :
  timed (RT := Py) untimed_treatment = false
  /\ timed (RT := Py) meal_treatment = true
  /\ map row_time (table_data
       (App.process_report_data (RT := Py) []
          [untimed_treatment; meal_treatment])) = ["21:00"]
  /\ Web.prepare_report_data (RT := Py) "" []
       [untimed_treatment; meal_treatment] = None
  /\ times_parse [broken_entry] = false
  /\ option_map (fun r => map row_bg (table_data r))
       (Web.prepare_report_data "" [broken_entry] [meal_treatment])
     = Some ["-"]
  /\ table_data (App.process_report_data [broken_entry] [meal_treatment]) = []
  /\ total_carbs (App.process_report_data [broken_entry] [meal_treatment])
     = 45%float
  /\ total_insulin (App.process_report_data [broken_entry] [meal_treatment])
     = 3%float.
Proof. repeat split; reflexivity. Qed.

(** ** Further properties of the code *)

(** *** The other records of the note grammar *)

Lemma upper_single (s : string) (c : ascii) :
  upper s = String c EmptyString -> exists c', s = String c' EmptyString.
Proof.
  destruct s as [|a [|b s]]; simpl; try discriminate; eauto.
Qed.

Lemma prefix_long_single (a b : ascii) (s : string) :
  s <> EmptyString -> prefix (String a s) (String b EmptyString) = false.
Proof.
  intros Hs. cbn [prefix].
  destruct (ascii_dec a b); [|reflexivity].
  destruct s; [congruence | reflexivity].
Qed.

Lemma single_not_basal (c : ascii) : basal_line (String c EmptyString) = false.
Proof.
  unfold basal_line, startswith.
  now rewrite !prefix_long_single by discriminate.
Qed.

Lemma letter_not_basal (first letter : string) (c : ascii) :
  letter = String c EmptyString ->
  String.eqb (upper first) letter = true ->
  (startswith first "Tore " || startswith first "トレ ") = false.
Proof.
  intros -> H. apply String.eqb_eq in H.
  destruct (upper_single _ _ H) as [c' ->]. apply single_not_basal.
Qed.

Lemma app_parse_tablet {RT : Runtime} (notes first : string)
    (rest : list string) :
  App.note_lines notes = first :: rest ->
  String.eqb (upper first) "B" = true ->
  App.parse_notes notes
  = {| App.cir := None; App.predicted_insulin := None;
       App.insulin_type := None; App.foods := "ぶどう糖補食" :: rest;
       App.basal_amount := None |}.
Proof.
  intros Hl Hb. unfold App.parse_notes.
  rewrite (app_note_lines_nonempty _ _ _ Hl), Hl. simpl negb. cbv iota.
  now rewrite (letter_not_basal first "B" "B" eq_refl Hb), Hb.
Qed.

Lemma web_parse_tablet {RT : Runtime} (notes line0 : string)
    (rest : list string) :
  nonempty notes = true ->
  split_lines (strip notes) = line0 :: rest ->
  String.eqb (upper (strip line0)) "B" = true ->
  Web.parse_notes notes
  = web_only_foods ("ぶどう糖補食" :: filter nonempty (map strip rest)).
Proof.
  intros Hn Hl Hb. unfold Web.parse_notes, Web.kept.
  rewrite Hn, Hl. simpl negb. cbv iota zeta.
  now rewrite (letter_not_basal (strip line0) "B" "B" eq_refl Hb), Hb.
Qed.

(** A note whose first line is the letter [B] in either case is a
    snack-tablet record: its food items are the glucose-snack item followed
    by the remaining lines, stripped, the ones left empty dropped, and
    nothing else is set. In both implementations. *)
Theorem parse_notes_snack_tablet (RT : Runtime) :
  (forall notes first rest,
     App.note_lines notes = first :: rest ->
     String.eqb (upper first) "B" = true ->
     App.parse_notes notes
     = {| App.cir := None; App.predicted_insulin := None;
          App.insulin_type := None; App.foods := "ぶどう糖補食" :: rest;
          App.basal_amount := None |})
  /\ (forall notes line0 rest,
        nonempty notes = true ->
        split_lines (strip notes) = line0 :: rest ->
        String.eqb (upper (strip line0)) "B" = true ->
        Web.parse_notes notes
        = web_only_foods
            ("ぶどう糖補食" :: filter nonempty (map strip rest)))
  /\ (forall notes first rest,
        App.note_lines notes = first :: rest ->
        exists blank later,
          map strip (split_lines (strip notes))
          = (blank ++ first :: later)%list
          /\ Forall (fun l => nonempty l = false) blank
          /\ rest = filter nonempty later).
Proof.
  split; [|split]; intros.
  - now apply app_parse_tablet with (first := first).
  - now apply web_parse_tablet with (line0 := line0).
  - now apply filter_head.
Qed.

(** The snack-tablet record on ["b\ntablet"] and, in the web module, on
    [padded_tablet_note], which has a blank line and a padded line. *)
Lemma parse_notes_snack_tablet_witness :
  App.parse_notes tablet_note
  = app_note None None None ["ぶどう糖補食"; "tablet"] None
  /\ Web.parse_notes padded_tablet_note
     = web_note None None None
         ("ぶどう糖補食" :: filter nonempty (map strip [""; "  tablet "; " "; "tea"]))
         None
  /\ filter nonempty (map strip [""; "  tablet "; " "; "tea"])
     = ["tablet"; "tea"]
  /\ App.parse_notes padded_tablet_note
     = app_note None None None ["ぶどう糖補食"; "tablet"; "tea"] None.
Proof.
  split; [|split; [|split]].
  - apply (proj1 (parse_notes_snack_tablet Py) tablet_note "b" ["tablet"]);
      reflexivity.
  - apply (proj1 (proj2 (parse_notes_snack_tablet Py)) padded_tablet_note
             "B " [""; "  tablet "; " "; "tea"]);
      reflexivity.
  - reflexivity.
  - apply (proj1 (parse_notes_snack_tablet Py) padded_tablet_note "B"
             ["tablet"; "tea"]);
      reflexivity.
Defined.

Lemma type_line_tests (first : string) :
  (String.eqb (upper first) "N" || String.eqb (upper first) "F") = true ->
  (startswith first "Tore " || startswith first "トレ ") = false
  /\ String.eqb (upper first) "B" = false
  /\ (upper first = "N" \/ upper first = "F").
Proof.
  intros H. apply orb_prop in H as [H|H].
  - split; [exact (letter_not_basal first "N" "N" eq_refl H)|].
    apply String.eqb_eq in H. rewrite H. split; [reflexivity | now left].
  - split; [exact (letter_not_basal first "F" "F" eq_refl H)|].
    apply String.eqb_eq in H. rewrite H. split; [reflexivity | now right].
Qed.

(** A note whose first line is the letter [N] or [F] in either case is an
    insulin-type record: the type is that letter in upper case, the food
    items are the remaining lines, stripped, the ones left empty dropped,
    and no number is set. In both implementations. *)
Theorem parse_notes_insulin_type (RT : Runtime) :
  (forall notes first rest,
     App.note_lines notes = first :: rest ->
     (String.eqb (upper first) "N" || String.eqb (upper first) "F") = true ->
     App.parse_notes notes
     = {| App.cir := None; App.predicted_insulin := None;
          App.insulin_type := Some (upper first); App.foods := rest;
          App.basal_amount := None |}
     /\ (upper first = "N" \/ upper first = "F"))
  /\ (forall notes line0 rest,
        nonempty notes = true ->
        split_lines (strip notes) = line0 :: rest ->
        (String.eqb (upper (strip line0)) "N"
         || String.eqb (upper (strip line0)) "F") = true ->
        Web.parse_notes notes
        = (None, None, Some (upper (strip line0)),
           filter nonempty (map strip rest), None)
        /\ (upper (strip line0) = "N" \/ upper (strip line0) = "F"))
  /\ (forall notes first rest,
        App.note_lines notes = first :: rest ->
        exists blank later,
          map strip (split_lines (strip notes))
          = (blank ++ first :: later)%list
          /\ Forall (fun l => nonempty l = false) blank
          /\ rest = filter nonempty later).
Proof.
  split; [|split; [|intros; now apply filter_head]].
  - intros notes first rest Hl Ht.
    destruct (type_line_tests _ Ht) as (H1 & H2 & H3). split; [|exact H3].
    unfold App.parse_notes.
    rewrite (app_note_lines_nonempty _ _ _ Hl), Hl. simpl negb. cbv iota.
    now rewrite H1, H2, Ht.
  - intros notes line0 rest Hn Hl Ht.
    destruct (type_line_tests _ Ht) as (H1 & H2 & H3). split; [|exact H3].
    unfold Web.parse_notes, Web.kept.
    rewrite Hn, Hl. simpl negb. cbv iota zeta.
    now rewrite H1, H2, Ht.
Qed.

(** The insulin-type record on ["f\nbread\n\n milk "], in both
    implementations: the blank line is dropped and the padded line
    stripped. *)
Lemma parse_notes_insulin_type_witness :
  App.parse_notes type_note
  = app_note None None (Some "F") ["bread"; "milk"] None
  /\ Web.parse_notes type_note
     = web_note None None (Some (upper (strip "f")))
         (filter nonempty (map strip ["bread"; ""; " milk"])) None
  /\ upper (strip "f") = "F"
  /\ filter nonempty (map strip ["bread"; ""; " milk"]) = ["bread"; "milk"].
Proof.
  split; [|split; [|split]].
  - apply (proj1 (parse_notes_insulin_type Py) type_note "f" ["bread"; "milk"]);
      reflexivity.
  - apply (proj1 (proj2 (parse_notes_insulin_type Py)) type_note "f"
             ["bread"; ""; " milk"]);
      reflexivity.
  - reflexivity.
  - reflexivity.
Defined.

(** A note that opens none of the four records, because the first token
    left on its first line does not parse as a float, is kept whole: every
    line, stripped, is a food item, the lines left empty dropped, and
    nothing else is set. In both implementations. *)
Theorem parse_notes_fallback (RT : Runtime) :
  (forall notes first rest,
     App.note_lines notes = first :: rest ->
     ratio_line first = true ->
     first_token_parses (App.test_line first) = false ->
     App.parse_notes notes
     = {| App.cir := None; App.predicted_insulin := None;
          App.insulin_type := None; App.foods := first :: rest;
          App.basal_amount := None |})
  /\ (forall notes line0 rest,
        nonempty notes = true ->
        split_lines (strip notes) = line0 :: rest ->
        ratio_line (strip line0) = true ->
        first_token_parses (Web.test_line (strip line0)) = false ->
        Web.parse_notes notes
        = web_only_foods (filter nonempty (map strip (line0 :: rest))))
  /\ (forall notes,
        App.note_lines notes
        = filter nonempty (map strip (split_lines (strip notes)))).
Proof.
  split; [|split; [|reflexivity]].
  - intros notes first rest Hl Hr Hf.
    destruct (ratio_line_tests _ Hr) as (H1 & H2 & H3).
    unfold App.parse_notes.
    rewrite (app_note_lines_nonempty _ _ _ Hl), Hl. simpl negb. cbv iota.
    rewrite H1, H2, H3. cbv zeta.
    unfold first_token_parses, present in Hf.
    destruct (split (App.test_line first)) as [|tok more]; [reflexivity|].
    destruct (float_of_str tok); [discriminate | reflexivity].
  - intros notes line0 rest Hn Hl Hr Hf.
    destruct (ratio_line_tests _ Hr) as (H1 & H2 & H3).
    unfold Web.parse_notes, Web.kept.
    rewrite Hn, Hl. simpl negb. cbv iota zeta.
    rewrite H1, H2, H3.
    unfold first_token_parses, present in Hf.
    destruct (split (Web.test_line (strip line0))) as [|tok more];
      [reflexivity|].
    destruct (float_of_str tok); [discriminate | reflexivity].
Qed.

(** The fallback on ["toast and jam\n \n coffee "], in both
    implementations: the blank line is dropped and the padded line
    stripped. *)
Lemma parse_notes_fallback_witness :
  App.parse_notes fallback_note
  = app_note None None None ["toast and jam"; "coffee"] None
  /\ Web.parse_notes fallback_note
     = web_note None None None
         (filter nonempty (map strip ["toast and jam"; " "; " coffee"])) None
  /\ filter nonempty (map strip ["toast and jam"; " "; " coffee"])
     = ["toast and jam"; "coffee"].
Proof.
  split; [|split].
  - apply (proj1 (parse_notes_fallback Py) fallback_note
             "toast and jam" ["coffee"]);
      reflexivity.
  - apply (proj1 (proj2 (parse_notes_fallback Py)) fallback_note
             "toast and jam" [" "; " coffee"]);
      reflexivity.
  - reflexivity.
Defined.

(** A note without any non-blank line, the empty note included, parses to
    the note with nothing set and no food item. In both implementations. *)
Theorem parse_notes_blank (RT : Runtime) :
  (forall notes, App.note_lines notes = [] -> App.parse_notes notes = App.empty_note)
  /\ (forall notes, strip notes = "" -> Web.parse_notes notes = web_only_foods []).
Proof.
  split.
  - intros notes Hl. unfold App.parse_notes. rewrite Hl.
    now destruct (negb (nonempty notes)).
  - intros notes Hs. unfold Web.parse_notes. rewrite Hs.
    now destruct (negb (nonempty notes)).
Qed.

(** The blank note on a text of spaces, an ideographic space and line
    breaks. *)
Lemma parse_notes_blank_witness :
  App.parse_notes (" " ++ nl ++ bytes [227; 128; 128]%nat ++ nl)
  = app_note None None None [] None
  /\ Web.parse_notes (" " ++ nl ++ bytes [227; 128; 128]%nat ++ nl)
     = web_note None None None [] None.
Proof.
  split.
  - apply (proj1 (parse_notes_blank Py)). reflexivity.
  - apply (proj2 (parse_notes_blank Py)). reflexivity.
Defined.

(** *** What every parsed note satisfies *)

Lemma split_suffix_type (s : string) :
  fst (App.split_suffix s) = None
  \/ fst (App.split_suffix s) = Some "N"
  \/ fst (App.split_suffix s) = Some "F".
Proof.
  unfold App.split_suffix.
  destruct (last_char s) as [c|]; [|now left]. cbv zeta.
  destruct (String.eqb (upper (String c EmptyString)) "N") eqn:HN.
  - apply String.eqb_eq in HN. rewrite HN. right. now left.
  - destruct (String.eqb (upper (String c EmptyString)) "F") eqn:HF.
    + apply String.eqb_eq in HF. rewrite HF. right. now right.
    + now left.
Qed.

Lemma app_note_well_formed {RT : Runtime} (notes : string) :
  well_formed_note (App.cir (App.parse_notes notes))
    (App.predicted_insulin (App.parse_notes notes))
    (App.insulin_type (App.parse_notes notes))
    (App.foods (App.parse_notes notes))
    (App.basal_amount (App.parse_notes notes)).
Proof.
  unfold App.parse_notes.
  destruct (negb (nonempty notes)); [note_shape|].
  destruct (App.note_lines notes) as [|first rest]; [note_shape|].
  destruct (startswith first "Tore " || startswith first "トレ ");
    [note_shape|].
  destruct (String.eqb (upper first) "B"); [note_shape|].
  destruct (String.eqb (upper first) "N" || String.eqb (upper first) "F")
    eqn:Ht.
  - destruct (type_line_tests _ Ht) as (_ & _ & [H|H]);
      unfold well_formed_note; simpl; rewrite H; repeat split;
      try tauto; try congruence.
  - cbv zeta.
    destruct (split (App.test_line first)) as [|tok [|second more]];
      [note_shape| |].
    + destruct (float_of_str tok); note_shape.
    + destruct (float_of_str tok); [|note_shape].
      unfold well_formed_note; simpl.
      split; [apply split_suffix_type|].
      repeat split; try congruence.
Qed.

Lemma web_note_well_formed {RT : Runtime} (notes : string) :
  well_formed_note (web_cir (Web.parse_notes notes))
    (web_predicted (Web.parse_notes notes))
    (web_type (Web.parse_notes notes))
    (web_foods (Web.parse_notes notes))
    (web_basal (Web.parse_notes notes)).
Proof.
  unfold Web.parse_notes.
  destruct (negb (nonempty notes)); [note_shape|].
  destruct (split_lines (strip notes)) as [|line0 rest]; [note_shape|].
  cbv zeta.
  destruct (startswith (strip line0) "Tore "
            || startswith (strip line0) "トレ ");
    [note_shape|].
  destruct (String.eqb (upper (strip line0)) "B"); [note_shape|].
  destruct (String.eqb (upper (strip line0)) "N"
            || String.eqb (upper (strip line0)) "F") eqn:Ht.
  - destruct (type_line_tests _ Ht) as (_ & _ & [H|H]);
      unfold well_formed_note; simpl; rewrite H; repeat split;
      try tauto; try congruence.
  - destruct (split (Web.test_line (strip line0))) as [|tok [|second more]];
      [note_shape| |].
    + destruct (float_of_str tok); note_shape.
    + destruct (float_of_str tok); [|note_shape].
      unfold well_formed_note; simpl.
      split; [apply split_suffix_type|].
      repeat split; try congruence.
Qed.

(** Whatever the note, the result of [parse_notes] is well formed: the
    insulin type is unset, ["N"] or ["F"]; a predicted insulin is only set
    together with a ratio; and a basal amount is only set in a note that
    has no ratio, no predicted insulin and no type and whose first food
    item is the basal item. In both implementations. *)
Theorem parse_notes_well_formed (RT : Runtime) (notes : string) :
  well_formed_note (App.cir (App.parse_notes notes))
    (App.predicted_insulin (App.parse_notes notes))
    (App.insulin_type (App.parse_notes notes))
    (App.foods (App.parse_notes notes))
    (App.basal_amount (App.parse_notes notes))
  /\ well_formed_note (web_cir (Web.parse_notes notes))
       (web_predicted (Web.parse_notes notes))
       (web_type (Web.parse_notes notes))
       (web_foods (Web.parse_notes notes))
       (web_basal (Web.parse_notes notes)).
Proof. split; [apply app_note_well_formed | apply web_note_well_formed]. Qed.

(** *** The cells of a row *)

Lemma append_nonempty_r (a b : string) :
  nonempty b = true -> nonempty (a ++ b) = true.
Proof. destruct a; simpl; auto. Qed.

Lemma str_or_dash_nonempty (s : string) : nonempty (str_or_dash s) = true.
Proof. unfold str_or_dash. now destruct (nonempty s) eqn:E. Qed.

Lemma num_or_dash_not_blank {RT : Runtime} (x : option float) :
  num_or_dash x <> Txt "".
Proof.
  unfold num_or_dash. destruct x as [v|]; [|discriminate].
  destruct (truthy v); discriminate.
Qed.

Lemma strftime_HM_nonempty {RT : Runtime} (t : Z) :
  nonempty (strftime_HM t) = true.
Proof. unfold strftime_HM. cbv zeta. now apply append_nonempty_r. Qed.

Lemma carbs_cell_nonempty (carbs_str : string) :
  nonempty (if nonempty carbs_str then carbs_str ++ "g" else "-") = true.
Proof.
  destruct (nonempty carbs_str); [|reflexivity]. now apply append_nonempty_r.
Qed.

Lemma food_cell_nonempty (fs : list string) :
  (forall f, In f fs -> nonempty f = true) ->
  nonempty match fs with [] => "-" | _ => join ", " fs end = true.
Proof.
  destruct fs as [|x [|y l]]; intros H; [reflexivity| |].
  - apply H. now left.
  - unfold join. cbn [concat]. apply append_nonempty_r. reflexivity.
Qed.

Lemma kept_nonblank (lines : list string) (f : string) :
  In f (Web.kept lines) -> nonempty f = true.
Proof. unfold Web.kept. intros H. now apply filter_In in H. Qed.

Lemma app_note_foods_nonblank {RT : Runtime} (notes f : string) :
  In f (App.foods (App.parse_notes notes)) -> nonempty f = true.
Proof.
  assert (Hk : forall l, App.note_lines notes = l ->
                         forall g, In g l -> nonempty g = true).
  { intros l <- g Hg. exact (kept_nonblank _ _ Hg). }
  unfold App.parse_notes.
  destruct (negb (nonempty notes)); [intros []|].
  destruct (App.note_lines notes) as [|first rest] eqn:Hl; [intros []|].
  pose proof (Hk _ eq_refl) as Hin.
  assert (Hrest : forall g, In g rest -> nonempty g = true)
    by (intros g Hg; apply Hin; now right).
  destruct (startswith first "Tore " || startswith first "トレ ").
  { simpl. intros [<-|H]; [reflexivity | auto]. }
  destruct (String.eqb (upper first) "B").
  { simpl. intros [<-|H]; [reflexivity | auto]. }
  destruct (String.eqb (upper first) "N" || String.eqb (upper first) "F").
  { simpl. auto. }
  cbv zeta.
  match goal with |- context [if ?b then _ else _] => destruct b end;
    simpl; auto.
Qed.

Lemma web_note_foods_nonblank {RT : Runtime} (notes f : string) :
  In f (web_foods (Web.parse_notes notes)) -> nonempty f = true.
Proof.
  unfold Web.parse_notes.
  destruct (negb (nonempty notes)); [intros []|].
  destruct (split_lines (strip notes)) as [|line0 rest]; [intros []|].
  cbv zeta.
  destruct (startswith (strip line0) "Tore "
            || startswith (strip line0) "トレ ").
  { simpl. intros [<-|H]; [reflexivity | eapply kept_nonblank; eauto]. }
  destruct (String.eqb (upper (strip line0)) "B").
  { simpl. intros [<-|H]; [reflexivity | eapply kept_nonblank; eauto]. }
  destruct (String.eqb (upper (strip line0)) "N"
            || String.eqb (upper (strip line0)) "F").
  { simpl. apply kept_nonblank. }
  match goal with |- context [if ?b then _ else _] => destruct b end;
    simpl; apply kept_nonblank.
Qed.

Lemma app_foods_nonblank {RT : Runtime} (t : Treatment) (f : string) :
  In f (app_foods t) -> nonempty f = true.
Proof.
  unfold app_foods, App.count_carbs.
  assert (H0 : forall g, In g (App.foods (App.parse_notes (get_str (notes t)))) ->
                         nonempty g = true)
    by (intros g; apply app_note_foods_nonblank).
  destruct (nonempty (get_str (carbs t))); [|apply H0].
  destruct (float_of_str (get_str (carbs t))); [|apply H0]. simpl.
  destruct (fleb _ _ && fleb _ _); [|apply H0].
  destruct (negb _); [|apply H0].
  intros [<-|H]; [reflexivity | now apply H0].
Qed.

Lemma web_foods_nonblank {RT : Runtime} (t : Treatment) (f : string) :
  In f (web_foods_of t) -> nonempty f = true.
Proof.
  unfold web_foods_of, Web.auto_snack.
  assert (H0 : forall g, In g (web_foods (Web.parse_notes (get_str (notes t)))) ->
                         nonempty g = true)
    by (intros g; apply web_note_foods_nonblank).
  destruct (nonempty (get_str (carbs t))); [|apply H0].
  destruct (float_of_str (get_str (carbs t))); [|apply H0].
  destruct (fleb _ _ && fleb _ _); [|apply H0].
  destruct (negb _ && negb _); [|apply H0].
  intros [<-|H]; [reflexivity | now apply H0].
Qed.

Lemma app_row_no_empty_cell {RT : Runtime} (entries : list Entry)
    (tot tot' : App.Totals) (t : Treatment) (row : Row) :
  App.process_treatment entries tot t = (tot', Some row) -> no_empty_cell row.
Proof.
  unfold App.process_treatment.
  destruct (moment_of _) as [dt|]; [|discriminate].
  destruct (App.count_carbs tot _ _) as [tot1 fs] eqn:E.
  assert (Hfs : fs = app_foods t).
  { unfold app_foods. rewrite (app_count_carbs_foods App.no_totals tot).
    now rewrite E. }
  destruct (App.cgm_display entries dt) as [cgm|]; [|discriminate].
  intros [= _ <-]. unfold no_empty_cell. simpl.
  repeat split;
    auto using strftime_HM_nonempty, str_or_dash_nonempty,
      num_or_dash_not_blank, carbs_cell_nonempty.
  apply food_cell_nonempty. subst fs. apply app_foods_nonblank.
Qed.

Lemma web_row_no_empty_cell {RT : Runtime} (entries : list Entry)
    (tot tot' : Web.Totals) (t : Treatment) (row : Row) :
  Web.prepare_row entries tot t = Some (tot', row) -> no_empty_cell row.
Proof.
  unfold Web.prepare_row.
  destruct (instant_of _) as [dt|]; [|discriminate].
  pose proof (web_foods_nonblank t) as Hf. unfold web_foods_of in Hf.
  destruct (Web.parse_notes _) as [[[[c p] ty] fs] b]. simpl in Hf.
  intros [= _ <-]. unfold no_empty_cell. simpl.
  repeat split;
    auto using strftime_HM_nonempty, str_or_dash_nonempty,
      num_or_dash_not_blank, carbs_cell_nonempty.
  now apply food_cell_nonempty.
Qed.

(** No row of the emitted table has an empty cell: the time is a label,
    every text that would be empty is the placeholder ["-"], and the food
    text joins food items none of which is blank. In both
    implementations. *)
Theorem rows_have_no_empty_cell (RT : Runtime) (entries : list Entry)
    (treatments : list Treatment) :
  (forall row,
     In row (table_data (App.process_report_data entries treatments)) ->
     no_empty_cell row)
  /\ (forall date_str r row,
        Web.prepare_report_data date_str entries treatments = Some r ->
        In row (table_data r) -> no_empty_cell row).
Proof.
  split.
  - intros row Hin.
    destruct (app_report_order entries treatments) as (_ & _ & Ht).
    rewrite Ht in Hin.
    destruct (app_rows_origin _ _ _ _ Hin) as (t & a & b & _ & Hp).
    eapply app_row_no_empty_cell; eauto.
  - intros date_str r row Hr Hin.
    destruct (web_report_order _ _ _ _ Hr) as (_ & _ & Ht).
    destruct (Web.prepare_rows entries Web.no_totals _)
      as [[final rows]|] eqn:E; [|discriminate].
    injection Ht as Ht. simpl in Ht. subst rows.
    destruct (web_rows_origin _ _ _ _ _ _ E Hin) as (t & a & b & _ & Hp).
    eapply web_row_no_empty_cell; eauto.
Qed.

(** The cells of the only row of a day with one treatment, whose note has a
    blank line. *)
Lemma rows_have_no_empty_cell_witness :
  map row_food (table_data (App.process_report_data [] [measured_treatment]))
  = ["soup"]
  /\ forall row,
       In row (table_data (App.process_report_data [] [measured_treatment])) ->
       no_empty_cell row.
Proof.
  split; [reflexivity|].
  exact (proj1 (rows_have_no_empty_cell Py [] [measured_treatment])).
Defined.

(** *** The chart *)








(** *** Totals and readings *)




(** *** Rows and faults *)












(** *** The glucose cell *)

Lemma add_measured_cell {RT : Runtime} (cgm : string) (t : Treatment) :
  str_or_dash (App.add_measured cgm (glucose t)) = bg_cell cgm (measured t)
  /\ str_or_dash (Web.add_measured cgm (glucose t)) = bg_cell cgm (measured t).
Proof.
  assert (H : str_or_dash
                (if nonempty (get_str (glucose t))
                 then if nonempty cgm
                      then cgm ++ " / 実測:" ++ get_str (glucose t)
                      else "実測:" ++ get_str (glucose t)
                 else cgm)
              = bg_cell cgm (measured t)).
  { unfold measured, bg_cell, get_str, str_or_dash.
    destruct (glucose t) as [g|]; cbn [nonempty].
    - destruct (nonempty g) eqn:Hg; destruct (nonempty cgm) eqn:Hc;
        rewrite ?Hc; try reflexivity.
      now rewrite append_nonempty_r
        by (apply (append_nonempty_r " / 実測:"); exact Hg).
    - destruct (nonempty cgm) eqn:Hc; now rewrite ?Hc. }
  split; exact H.
Qed.

(** The cell [bg] of a row is made of the CGM text of the treatment and of
    its measured value: both, joined by [" / 実測:"], when both exist; the
    measured value after ["実測:"] when there is no CGM text; the CGM text
    when nothing was measured; and ["-"] when there is neither. A measured
    value that is the empty text counts as missing. In both
    implementations. *)
Theorem bg_cell_of_row (RT : Runtime) (entries : list Entry) (t : Treatment)
    (row : Row) :
  (forall tot tot',
     App.process_treatment entries tot t = (tot', Some row) ->
     exists dt cgm,
       moment_of (get_str (created_at t)) = Some dt
       /\ App.cgm_display entries dt = Some cgm
       /\ row_bg row = bg_cell cgm (measured t))
  /\ (forall tot tot',
        Web.prepare_row entries tot t = Some (tot', row) ->
        exists dt,
          instant_of (get_str (created_at t)) = Some dt
          /\ row_bg row = bg_cell (Web.cgm_display entries dt) (measured t)).
Proof.
  split.
  - intros tot tot'. unfold App.process_treatment.
    destruct (moment_of _) as [dt|] eqn:Ei; [|discriminate].
    destruct (App.count_carbs tot _ _) as [tot1 fs].
    destruct (App.cgm_display entries dt) as [cgm|] eqn:Ec; [|discriminate].
    intros [= _ <-]. exists dt, cgm.
    split; [reflexivity|]. split; [exact Ec|].
    cbn [row_bg]. apply add_measured_cell.
  - intros tot tot'. unfold Web.prepare_row.
    destruct (instant_of _) as [dt|] eqn:Ei; [|discriminate].
    destruct (Web.parse_notes _) as [[[[c p] ty] fs] b].
    intros [= _ <-]. exists dt. split; [reflexivity|].
    cbn [row_bg]. apply add_measured_cell.
Qed.

(** The glucose cell of a treatment with a measured value of 98 and a
    reading ten minutes before it. *)
Lemma bg_cell_of_row_example :
  map row_bg (table_data
    (App.process_report_data
       [ {| dateString := "2024-01-15T22:20:00Z"; sgv := Some 105;
            direction := Some "Flat"; delta := None |} ]
       [measured_treatment]))
  = ["105 → / 実測:98"]
  /\ bg_cell "105 →" (measured measured_treatment) = "105 → / 実測:98".
Proof. split; reflexivity. Qed.

(** *** Ties between readings *)

Lemma ordered_keys_same {RT : Runtime} {A : Type} (key : A -> option float)
    (l : list A) (k : float) :
  fltb k k = false ->
  (forall x, In x l -> key x = Some k) ->
  ordered_keys key l.
Proof.
  intros Hk Hl x y z a b c Hx Hy Hz Ha Hb Hc.
  rewrite (Hl x Hx) in Ha. rewrite (Hl y Hy) in Hb. rewrite (Hl z Hz) in Hc.
  injection Ha as <-. injection Hb as <-. injection Hc as <-. auto.
Qed.

(** Among the readings of smallest key, the correlator keeps the one that
    comes first in the list of readings as given (not as sorted): where
    [<] orders the keys, every reading before the one kept has a strictly
    larger key and no reading after it has a smaller one. The key is the
    absolute difference of the two [timestamp()] values in [app.py],
    two numbers of binary64, and the absolute number of seconds between the
    two times in [nightscout_web_app.py]. The times of the readings are
    assumed to be readable. *)
Theorem closest_reading_is_first (RT : Runtime) (entries : list Entry)
    (dt : datetime) :
  times_parse entries = true ->
  entries <> [] ->
  (ordered_keys (App.distance dt) entries ->
   exists before closest after d,
     entries = (before ++ closest :: after)%list
     /\ App.distance dt closest = Some d
     /\ all_above (App.distance dt) true d before
     /\ all_above (App.distance dt) false d after
     /\ App.cgm_display entries dt
        = if fltb d (float_of_int 900) then App.cgm_text closest
          else Some "")
  /\ (ordered_keys (Web.distance (instant dt)) entries ->
      exists before closest after d,
        entries = (before ++ closest :: after)%list
        /\ Web.distance (instant dt) closest = Some d
        /\ all_above (Web.distance (instant dt)) true d before
        /\ all_above (Web.distance (instant dt)) false d after
        /\ Web.cgm_display entries (instant dt)
           = Web.cgm_display [closest] (instant dt)).
Proof.
  intros Hp Hne. split; intros Ho.
  - destruct (py_min_total (App.distance dt) entries Hne
                (dates_parse_app_distance entries dt
                   (times_parse_dates entries Hp))) as [m Hm].
    destruct (py_min_first _ _ _ Ho Hm) as (d & l1 & l2 & Hl & Hd & H1 & H2).
    exists l1, m, l2, d. repeat split; auto.
    unfold App.cgm_display. destruct entries as [|e l]; [congruence|].
    now rewrite Hm, Hd.
  - destruct (py_min_total (Web.distance (instant dt)) entries Hne
                (times_parse_web_distance entries (instant dt) Hp))
      as [m Hm].
    destruct (py_min_first _ _ _ Ho Hm) as (d & l1 & l2 & Hl & Hd & H1 & H2).
    exists l1, m, l2, d. repeat split; auto.
    unfold Web.cgm_display. destruct entries as [|e l]; [congruence|].
    rewrite Hm. simpl. now rewrite Hd.
Qed.

Lemma ten_minutes_app (e : Entry) :
  In e [before_entry; after_entry] -> App.distance noon e = Some 600%float.
Proof. intros [<-|[<-|[]]]; reflexivity. Qed.

Lemma ten_minutes_web (e : Entry) :
  In e [before_entry; after_entry] ->
  Web.distance (instant noon) e = Some 600%float.
Proof. intros [<-|[<-|[]]]; reflexivity. Qed.

(** Two readings ten minutes before and ten minutes after noon, both at
    the key 600: the one given first is shown, in either order and in both
    implementations. *)
Lemma closest_reading_is_first_witness :
  ((exists before closest after d,
      [before_entry; after_entry] = (before ++ closest :: after)%list
      /\ App.distance noon closest = Some d
      /\ all_above (App.distance noon) true d before
      /\ all_above (App.distance noon) false d after
      /\ App.cgm_display [before_entry; after_entry] noon
         = if fltb d (float_of_int 900) then App.cgm_text closest
           else Some "")
   /\ (exists before closest after d,
         [before_entry; after_entry] = (before ++ closest :: after)%list
         /\ Web.distance (instant noon) closest = Some d
         /\ all_above (Web.distance (instant noon)) true d before
         /\ all_above (Web.distance (instant noon)) false d after
         /\ Web.cgm_display [before_entry; after_entry] (instant noon)
            = Web.cgm_display [closest] (instant noon)))
  /\ App.cgm_display [before_entry; after_entry] noon = Some "90 "
  /\ App.cgm_display [after_entry; before_entry] noon = Some "180 "
  /\ Web.cgm_display [before_entry; after_entry] (instant noon) = "90"
  /\ Web.cgm_display [after_entry; before_entry] (instant noon) = "180".
Proof.
  split; [|repeat split; reflexivity].
  destruct (closest_reading_is_first Py [before_entry; after_entry] noon)
    as [Ha Hw]; [reflexivity | discriminate |].
  split.
  - apply Ha. apply (ordered_keys_same (RT := Py) _ _ 600%float);
      [reflexivity | exact ten_minutes_app].
  - apply Hw. apply (ordered_keys_same (RT := Py) _ _ 600%float);
      [reflexivity | exact ten_minutes_web].
Defined.

(** The keys of [app.py] are differences of rounded numbers. A treatment
    two milliseconds after one reading and two milliseconds before
    another: the two [timestamp()] differences are not the same number of
    binary64, the second is the smaller, and [app.py] shows the second
    reading; [nightscout_web_app.py], which rounds the exact difference,
    finds a tie and shows the first. *)
Lemma keys_are_rounded_differences :
  match App.distance two_ms zero_ms_entry,
        App.distance two_ms four_ms_entry with
  | Some first, Some second => PrimFloat.ltb second first
  | _, _ => false
  end = true
  /\ App.cgm_display [zero_ms_entry; four_ms_entry] two_ms = Some "180 "
  /\ Web.distance (instant two_ms) zero_ms_entry
     = Web.distance (instant two_ms) four_ms_entry
  /\ Web.cgm_display [zero_ms_entry; four_ms_entry] (instant two_ms) = "90".
Proof. repeat split; reflexivity. Qed.

(** *** The carbohydrate total *)









(** *** The time label *)

Lemma length_append (a b : string) :
  String.length (a ++ b) = (String.length a + String.length b)%nat.
Proof. induction a as [|c a IH]; simpl; [reflexivity | now rewrite IH]. Qed.

Lemma two_digits_length (n : Z) :
  0 <= n < 100 -> String.length (two_digits n) = 2%nat.
Proof.
  intros Hn.
  assert (H : forallb (fun k => Nat.eqb (String.length (two_digits (Z.of_nat k))) 2)
                (seq 0 100) = true) by (vm_compute; reflexivity).
  rewrite forallb_forall in H.
  specialize (H (Z.to_nat n)). rewrite Z2Nat.id in H by lia.
  apply Nat.eqb_eq, H, in_seq. lia.
Qed.

Lemma clock_of_instant (d h m s us : Z) :
  0 <= h < 24 -> 0 <= m < 60 -> 0 <= s < 60 -> 0 <= us < 1000000 ->
  let t := (((d * 24 + h) * 60 + m) * 60 + s) * 1000000 + us in
  let sod := (t / 1000000 + 9 * 3600) mod 86400 in
  sod / 3600 = (h + 9) mod 24 /\ sod mod 3600 / 60 = m.
Proof.
  intros Hh Hm Hs Hus t sod.
  assert (Ht : t / 1000000 = ((d * 24 + h) * 60 + m) * 60 + s).
  { symmetry. apply (Z.div_unique_pos t 1000000 _ us); [lia|]. unfold t. lia. }
  pose proof (Z.div_mod (h + 9) 24 ltac:(lia)) as Hq.
  pose proof (Z.mod_pos_bound (h + 9) 24 ltac:(lia)) as Hb.
  set (h' := (h + 9) mod 24) in *. set (c := (h + 9) / 24) in *.
  assert (Hsod : sod = h' * 3600 + m * 60 + s).
  { unfold sod. rewrite Ht. symmetry.
    apply (Z.mod_unique_pos _ 86400 (d + c)); lia. }
  rewrite Hsod. split.
  - symmetry. apply (Z.div_unique_pos _ 3600 _ (m * 60 + s)); lia.
  - assert (Hr : (h' * 3600 + m * 60 + s) mod 3600 = m * 60 + s).
    { symmetry. apply (Z.mod_unique_pos _ 3600 h'); lia. }
    rewrite Hr. symmetry. apply (Z.div_unique_pos _ 60 _ s); lia.
Qed.

Lemma strftime_HM_length {RT : Runtime} (t : Z) :
  String.length (strftime_HM t) = 5%nat.
Proof.
  unfold strftime_HM. cbv zeta.
  set (sod := ((t + utcoffset_JST t) / 1000000) mod 86400).
  assert (Hsod : 0 <= sod < 86400) by (apply Z.mod_pos_bound; lia).
  rewrite !length_append, !two_digits_length; [reflexivity| |].
  - pose proof (Z.mod_pos_bound sod 3600 ltac:(lia)).
    split; [apply Z.div_pos; lia | apply Z.div_lt_upper_bound; lia].
  - split; [apply Z.div_pos; lia | apply Z.div_lt_upper_bound; lia].
Qed.

(** Since the end of the summer of 1951 the zone is nine hours ahead of
    UTC. *)
Lemma tokyo_standard_time (t : Z) :
  last_summer_end <= t -> @utcoffset_JST Py t = 32400000000.
Proof.
  unfold last_summer_end. intros Ht.
  change (@utcoffset_JST Py t) with (PyNum.tokyo_utcoffset t).
  unfold PyNum.tokyo_utcoffset, PyNum.tokyo_summers.
  change (PyNum.utc_hour 1887 12 31 15) with (-2587712400000000).
  change (PyNum.utc_hour 1948 5 1 15) with (-683802000000000).
  change (PyNum.utc_hour 1948 9 11 15) with (-672310800000000).
  change (PyNum.utc_hour 1949 4 2 15) with (-654771600000000).
  change (PyNum.utc_hour 1949 9 10 15) with (-640861200000000).
  change (PyNum.utc_hour 1950 5 6 15) with (-620298000000000).
  change (PyNum.utc_hour 1950 9 9 15) with (-609411600000000).
  change (PyNum.utc_hour 1951 5 5 15) with (-588848400000000).
  change (PyNum.utc_hour 1951 9 8 15) with (-577962000000000) in *.
  cbn [existsb fst snd].
  replace (t <? -2587712400000000) with false by (symmetry; apply Z.ltb_ge; lia).
  replace (t <? -672310800000000) with false by (symmetry; apply Z.ltb_ge; lia).
  replace (t <? -640861200000000) with false by (symmetry; apply Z.ltb_ge; lia).
  replace (t <? -609411600000000) with false by (symmetry; apply Z.ltb_ge; lia).
  replace (t <? -577962000000000) with false by (symmetry; apply Z.ltb_ge; lia).
  rewrite !andb_false_r. reflexivity.
Qed.

Lemma standard_time_label (d h m s us : Z) :
  0 <= h < 24 -> 0 <= m < 60 -> 0 <= s < 60 -> 0 <= us < 1000000 ->
  last_summer_end <= clock_instant d h m s us ->
  strftime_HM (RT := Py) (clock_instant d h m s us)
  = two_digits ((h + 9) mod 24) ++ ":" ++ two_digits m.
Proof.
  intros Hh Hm Hs Hus Ht.
  destruct (clock_of_instant d h m s us Hh Hm Hs Hus) as [H1 H2].
  unfold strftime_HM. cbv zeta. rewrite (tokyo_standard_time _ Ht).
  change 32400000000 with (9 * 3600 * 1000000).
  rewrite Z.div_add by lia. unfold clock_instant. now rewrite H1, H2.
Qed.

(** The time label of a row is the clock of Tokyo at the treatment. For a
    treatment at [h] hours, [m] minutes, [s] seconds and [us] microseconds
    UTC of a day that is not before the end of the last summer time of
    Japan (1951-09-08T15:00Z), the row of either implementation shows the
    hour [(h + 9) mod 24] and the minute [m], each on two digits, the
    seconds dropped. (Before that the zone has other offsets.) *)
Theorem time_label_is_jst_clock (entries : list Entry) (t : Treatment)
    (row : Row) (d h m s us : Z) :
  0 <= h < 24 -> 0 <= m < 60 -> 0 <= s < 60 -> 0 <= us < 1000000 ->
  last_summer_end <= clock_instant d h m s us ->
  instant_of (RT := Py) (get_str (created_at t))
  = Some (clock_instant d h m s us) ->
  (forall tot tot',
     App.process_treatment entries tot t = (tot', Some row) ->
     row_time row = two_digits ((h + 9) mod 24) ++ ":" ++ two_digits m)
  /\ (forall tot tot',
        Web.prepare_row entries tot t = Some (tot', row) ->
        row_time row = two_digits ((h + 9) mod 24) ++ ":" ++ two_digits m).
Proof.
  intros Hh Hm Hs Hus Ht Hi.
  pose proof (standard_time_label d h m s us Hh Hm Hs Hus Ht) as Hl.
  split; intros tot tot'.
  - unfold App.process_treatment. unfold instant_of in Hi.
    destruct (moment_of _) as [dt|]; [|discriminate].
    injection Hi as Hi.
    destruct (App.count_carbs tot _ _) as [tot1 fs].
    destruct (App.cgm_display entries dt) as [cgm|]; [|discriminate].
    intros [= _ <-]. cbn [row_time]. now rewrite Hi.
  - unfold Web.prepare_row. rewrite Hi.
    destruct (Web.parse_notes _) as [[[[c p] ty] fs] b].
    intros [= _ <-]. cbn [row_time]. exact Hl.
Qed.

(** The label of the meal at 12:00 UTC on 2024-01-15, day 19737 of the
    epoch, is 21:00 in both tables; and a treatment on a summer day of
    1950, when the clocks of Japan were ten hours ahead, is labelled
    10:00. *)
Lemma time_label_is_jst_clock_witness :
  (forall row,
     In row (table_data (App.process_report_data [] [meal_treatment])) ->
     row_time row = "21:00")
  /\ (forall row tot',
        Web.prepare_row [] Web.no_totals meal_treatment = Some (tot', row) ->
        row_time row = "21:00")
  /\ map row_time (table_data (App.process_report_data [] [summer_treatment]))
     = ["10:00"]
  /\ option_map (fun r => map row_time (table_data r))
       (Web.prepare_report_data "" [] [summer_treatment])
     = Some ["10:00"].
Proof.
  assert (H : forall row,
             (forall tot tot',
                App.process_treatment [] tot meal_treatment
                = (tot', Some row) ->
                row_time row = "21:00")
             /\ (forall tot tot',
                   Web.prepare_row [] tot meal_treatment = Some (tot', row) ->
                   row_time row = "21:00")).
  { intros row.
    apply (time_label_is_jst_clock [] meal_treatment row 19737 12 0 0 0);
      try lia; try reflexivity.
    now vm_compute. }
  split; [|split; [|split; reflexivity]].
  - intros row [<-|[]].
    apply (proj1 (H _) App.no_totals
             (fst (App.process_treatment [] App.no_totals meal_treatment))).
    reflexivity.
  - intros row tot' E. exact (proj2 (H row) _ _ E).
Defined.

(** *** The snack item is added once *)

Lemma prefix_nil (s : string) : prefix "" s = true.
Proof. now destruct s. Qed.

Lemma contains_prefix (sub rest : string) :
  sub <> "" -> prefix sub (sub ++ rest) = true ->
  contains sub (sub ++ rest) = true.
Proof.
  unfold contains. intros Hs Hp.
  destruct sub as [|c sub]; [congruence|].
  cbn [append index]. cbn [append] in Hp. now rewrite Hp.
Qed.

Lemma snack_marker_prefix (rest : string) :
  contains "補食" ("補食" ++ rest) = true.
Proof.
  apply contains_prefix; [discriminate|].
  cbn [append prefix].
  repeat match goal with
         | |- context [ascii_dec ?a ?a] =>
             destruct (ascii_dec a a); [|congruence]
         end.
  apply prefix_nil.
Qed.

Lemma app_snack_cases {RT : Runtime} (carbs_str : string) (fs : list string) :
  (app_snack carbs_str fs = fs /\
   (has_snack_item fs = true \/ carbs_value_in_range carbs_str = false))
  \/ (app_snack carbs_str fs = "補食" :: fs /\ has_snack_item fs = false
      /\ carbs_value_in_range carbs_str = true).
Proof.
  unfold app_snack, App.count_carbs, carbs_value_in_range, has_snack_item,
    snack_range.
  destruct (nonempty carbs_str); [|left; auto].
  destruct (float_of_str carbs_str) as [v|]; [|left; auto]. simpl.
  destruct (fleb _ _ && fleb _ _); [|left; auto].
  destruct (existsb (contains "補食") fs); simpl; [left; auto | right; auto].
Qed.

Lemma web_snack_cases {RT : Runtime} (carbs_str : string) (fs : list string) :
  Web.auto_snack carbs_str fs = fs
  \/ (Web.auto_snack carbs_str fs = "補食" :: fs
      /\ existsb (String.eqb "ぶどう糖補食") fs = false
      /\ contains "補食" (join "" fs) = false
      /\ carbs_value_in_range carbs_str = true).
Proof.
  unfold Web.auto_snack, carbs_value_in_range, snack_range.
  destruct (nonempty carbs_str); [|left; auto].
  destruct (float_of_str carbs_str) as [v|]; [|left; auto].
  destruct (fleb _ _ && fleb _ _); [|left; auto].
  destruct (existsb (String.eqb "ぶどう糖補食") fs); simpl; [left; auto|].
  destruct (contains "補食" (join "" fs)); simpl; [left; auto | right; auto].
Qed.

Lemma joined_snack (fs : list string) :
  contains "補食" (join "" ("補食" :: fs)) = true.
Proof.
  unfold join. cbn [concat].
  destruct fs as [|f fs]; [reflexivity|].
  apply snack_marker_prefix.
Qed.

(** The snack step adds the snack item at most once, at the head of the
    food items, and a second run of it adds nothing more; and it leaves
    alone the food items of a snack-tablet record, which hold the
    glucose-snack item. In both implementations. *)
Theorem snack_item_added_once (RT : Runtime) (carbs_str : string)
    (fs : list string) :
  ((app_snack carbs_str fs = fs \/ app_snack carbs_str fs = "補食" :: fs)
   /\ app_snack carbs_str (app_snack carbs_str fs) = app_snack carbs_str fs
   /\ (In "ぶどう糖補食" fs -> app_snack carbs_str fs = fs))
  /\ ((Web.auto_snack carbs_str fs = fs
       \/ Web.auto_snack carbs_str fs = "補食" :: fs)
      /\ Web.auto_snack carbs_str (Web.auto_snack carbs_str fs)
         = Web.auto_snack carbs_str fs
      /\ (In "ぶどう糖補食" fs -> Web.auto_snack carbs_str fs = fs)).
Proof.
  split; split; [| split | | split].
  - destruct (app_snack_cases carbs_str fs) as [[H _]|[H _]]; auto.
  - destruct (app_snack_cases carbs_str fs) as [[H _]|(H & _ & Hr)];
      rewrite H; [exact H|].
    destruct (app_snack_cases carbs_str ("補食" :: fs))
      as [[H' _]|(_ & Hs & _)]; [exact H'|].
    unfold has_snack_item in Hs. cbn [existsb] in Hs.
    change (contains "補食" "補食") with true in Hs. discriminate.
  - intros Hin.
    destruct (app_snack_cases carbs_str fs) as [[H _]|(_ & Hs & _)];
      [exact H|].
    unfold has_snack_item in Hs.
    assert (Ht : existsb (contains "補食") fs = true).
    { apply existsb_exists. exists "ぶどう糖補食". split; [exact Hin|].
      reflexivity. }
    congruence.
  - destruct (web_snack_cases carbs_str fs) as [H|[H _]]; auto.
  - destruct (web_snack_cases carbs_str fs) as [H|[H _]];
      rewrite H; [exact H|].
    destruct (web_snack_cases carbs_str ("補食" :: fs))
      as [H'|(_ & _ & Hs & _)]; [exact H'|].
    rewrite joined_snack in Hs. discriminate.
  - intros Hin.
    destruct (web_snack_cases carbs_str fs) as [H|(_ & Hs & _)]; [exact H|].
    assert (Ht : existsb (String.eqb "ぶどう糖補食") fs = true).
    { apply existsb_exists. exists "ぶどう糖補食". split; [exact Hin|].
      apply String.eqb_refl. }
    congruence.
Qed.

(** The snack step on a snack-tablet record of two grams. *)
Lemma snack_item_added_once_witness :
  app_snack (RT := Py) "2" ["ぶどう糖補食"; "tablet"] = ["ぶどう糖補食"; "tablet"]
  /\ Web.auto_snack (RT := Py) "2" ["ぶどう糖補食"; "tablet"]
     = ["ぶどう糖補食"; "tablet"].
Proof.
  split.
  - apply (proj2 (proj2 (proj1 (snack_item_added_once Py "2"
                                  ["ぶどう糖補食"; "tablet"])))).
    now left.
  - apply (proj2 (proj2 (proj2 (snack_item_added_once Py "2"
                                  ["ぶどう糖補食"; "tablet"])))).
    now left.
Defined.

(** *** Tokens *)

Lemma string_of_rev_cons_nonempty (c : ascii) (cur : list ascii) :
  string_of_list_ascii (rev (c :: cur)) <> "".
Proof.
  cbn [rev]. destruct (rev cur) as [|x l]; simpl; discriminate.
Qed.

Lemma split_marked_nonempty (l : list (ascii * bool)) (cur : list ascii)
    (tok : string) :
  In tok (split_marked cur l) -> tok <> "".
Proof.
  revert cur.
  induction l as [|[c [|]] l IH]; intros cur; cbn [split_marked].
  - destruct cur as [|x cur]; [intros [] | intros [<-|[]]].
    apply string_of_rev_cons_nonempty.
  - destruct cur as [|x cur]; [apply IH|].
    intros [<-|H]; [apply string_of_rev_cons_nonempty | now apply (IH [])].
  - apply IH.
Qed.

Lemma last_char_nonempty (s : string) : s <> "" -> last_char s <> None.
Proof.
  induction s as [|c s IH]; [congruence|]. intros _.
  destruct s as [|c' s]; [discriminate|].
  change (last_char (String c (String c' s))) with (last_char (String c' s)).
  apply IH. discriminate.
Qed.

(** [split] returns no empty token, so the last character of a token always
    exists: the index [second_part[-1]] that [app.py] takes without a guard
    never raises, and the guard [second_part and ...] of
    [nightscout_web_app.py] never fails. *)
Theorem tokens_have_a_last_character (line tok : string) :
  In tok (split line) -> tok <> "" /\ last_char tok <> None.
Proof.
  unfold split. intros H.
  pose proof (split_marked_nonempty _ _ _ H) as Hn.
  split; [exact Hn | now apply last_char_nonempty].
Qed.

(** The tokens of [" 300  4.5N "]. *)
Lemma tokens_have_a_last_character_witness :
  split " 300  4.5N " = ["300"; "4.5N"]
  /\ "4.5N" <> "" /\ last_char "4.5N" <> None.
Proof.
  split; [reflexivity|].
  apply (tokens_have_a_last_character " 300  4.5N " "4.5N").
  right. now left.
Defined.

(** *** The order of an ordered feed *)

Lemma sorted_of_ascending {A : Type} (key : A -> string) (l : list A) :
  ascending_by key l -> sorted key l = l.
Proof.
  unfold ascending_by.
  induction l as [|x l IH]; [reflexivity|].
  intros Hs. inversion Hs as [|? ? Hl Hx]; subst.
  change (sorted key (x :: l)) with (insert_by key x (sorted key l)).
  rewrite (IH Hl).
  destruct l as [|y l]; [reflexivity|].
  cbn [insert_by]. inversion Hx as [|? ? Hxy _]; subst. now rewrite Hxy.
Qed.

(** A list whose keys already ascend is left as it is by the sort, equal
    keys in the order given; so sorting twice is sorting once, and readings
    and treatments that arrive in ascending order of their time text are
    processed in the order of arrival. *)
Theorem sorted_keeps_ascending_input (RT : Runtime) (entries : list Entry)
    (treatments : list Treatment) :
  (ascending_by dateString entries -> sorted dateString entries = entries)
  /\ (ascending_by created_key treatments ->
      sorted created_key treatments = treatments)
  /\ sorted dateString (sorted dateString entries) = sorted dateString entries
  /\ sorted created_key (sorted created_key treatments)
     = sorted created_key treatments.
Proof.
  repeat split;
    try apply sorted_of_ascending; try apply sorted_ascending.
Qed.

(** The three readings of a sample day are in ascending order and the sort
    returns them as they are. *)
Lemma sorted_keeps_ascending_input_witness :
  sorted dateString three_entries = three_entries.
Proof.
  apply (proj1 (sorted_keeps_ascending_input Py three_entries [])).
  unfold ascending_by.
  repeat (constructor; [|repeat (constructor; try reflexivity)]).
  constructor.
Defined.

(** *** Trend arrows *)

Lemma arrows_get_known (d : string) :
  arrows_get d <> "" -> In d known_directions.
Proof.
  unfold arrows_get, known_directions.
  repeat match goal with
         | |- context [String.eqb d ?c] =>
             destruct (String.eqb_spec d c) as [->|_];
             [intros _; cbn [In];
              repeat (first [left; reflexivity | right])|]
         end.
  congruence.
Qed.

(** The two [get_direction_arrow] agree on every code, the empty one
    included; a missing code gives no arrow in [app.py]; and an arrow is
    only produced for one of the nine codes of the table, spelled exactly
    (codes are case-sensitive). *)
Theorem direction_arrows (d : string) :
  App.get_direction_arrow (Some d) = Web.get_direction_arrow d
  /\ App.get_direction_arrow None = ""
  /\ (Web.get_direction_arrow d <> "" -> In d known_directions).
Proof.
  split; [|split; [reflexivity | apply arrows_get_known]].
  unfold App.get_direction_arrow, Web.get_direction_arrow.
  destruct d; reflexivity.
Qed.

(** The arrow of [Flat], and none for [flat]. *)
Lemma direction_arrows_witness :
  Web.get_direction_arrow "Flat" = "→"
  /\ In "Flat" known_directions
  /\ Web.get_direction_arrow "flat" = "".
Proof.
  split; [reflexivity|]. split; [|reflexivity].
  apply (proj2 (proj2 (direction_arrows "Flat"))). discriminate.
Defined.

(** *** The client *)

Lemma drop_char_spec (c : ascii) (l : list ascii) :
  exists n, l = (repeat c n ++ Client.drop_char c l)%list
            /\ hd_error (Client.drop_char c l) <> Some c.
Proof.
  induction l as [|x l (n & Hl & Hh)]; [exists O; split; [reflexivity | discriminate]|].
  cbn [Client.drop_char].
  destruct (Ascii.eqb x c) eqn:E.
  - apply Ascii.eqb_eq in E. subst x. exists (S n). cbn [repeat app].
    split; [now f_equal | exact Hh].
  - exists O. split; [reflexivity|]. cbn [hd_error]. intros [= ->].
    now rewrite Ascii.eqb_refl in E.
Qed.

Lemma string_of_list_app (l l' : list ascii) :
  string_of_list_ascii (l ++ l')
  = string_of_list_ascii l ++ string_of_list_ascii l'.
Proof. induction l as [|x l IH]; simpl; [reflexivity | now rewrite IH]. Qed.

Lemma slashes_repeat (n : nat) :
  string_of_list_ascii (repeat "/"%char n) = slashes n.
Proof. induction n as [|n IH]; simpl; [reflexivity | now rewrite IH]. Qed.

Lemma last_char_rev (l : list ascii) :
  last_char (string_of_list_ascii (rev l)) = hd_error l.
Proof.
  assert (H : forall l' x, last_char (string_of_list_ascii (l' ++ [x])) = Some x).
  { induction l' as [|y l' IH]; intros x; [reflexivity|].
    cbn [app string_of_list_ascii]. specialize (IH x).
    destruct (l' ++ [x])%list eqn:E; [now destruct l'|exact IH]. }
  destruct l as [|x l]; [reflexivity|]. cbn [rev hd_error]. apply H.
Qed.

(** The base address the client keeps is the one given without its trailing
    slashes: it does not end with a slash, only slashes were removed, and
    the two addresses requested are the base address followed by the paths
    of the API, with one slash in between. Without a secret, or with an
    empty one, the client sends no [API-SECRET] header; with one it sends
    exactly that header, holding the digest. *)
Theorem client_init_url_and_headers (sha1_hex : string -> string)
    (url0 : string) (secret : option string) :
  last_char (Client.url (Client.init sha1_hex url0 secret)) <> Some "/"%char
  /\ (exists n,
        url0 = Client.url (Client.init sha1_hex url0 secret) ++ slashes n)
  /\ Client.entries_address (Client.init sha1_hex url0 secret)
     = Client.rstrip url0 "/" ++ "/api/v1/entries.json"
  /\ (Client.headers (Client.init sha1_hex url0 secret) = []
      <-> get_str secret = "")
  /\ (forall s, secret = Some s -> s <> "" ->
      Client.headers (Client.init sha1_hex url0 secret)
      = [("API-SECRET", sha1_hex s)]).
Proof.
  cbn [Client.init Client.url Client.headers]. unfold Client.rstrip.
  destruct (drop_char_spec "/" (rev (list_ascii_of_string url0)))
    as (n & Hl & Hh).
  split; [now rewrite last_char_rev|].
  split.
  - exists n.
    rewrite <- (string_of_list_ascii_of_string url0) at 1.
    rewrite <- (rev_involutive (list_ascii_of_string url0)), Hl at 1.
    rewrite rev_app_distr, string_of_list_app, rev_repeat, slashes_repeat.
    reflexivity.
  - split; [reflexivity|]. split.
    + destruct secret as [[|c s]|]; simpl; split; try reflexivity;
        discriminate.
    + intros s -> Hs. destruct s; [congruence | reflexivity].
Qed.

(** The client of the default address written with two trailing slashes,
    with a secret. *)
Lemma client_init_url_and_headers_witness :
  Client.url (Client.init (fun s => s) "https://ren-cgm.azurewebsites.net//"
                (Some "secret"))
  = "https://ren-cgm.azurewebsites.net"
  /\ Client.headers (Client.init (fun s => s)
                       "https://ren-cgm.azurewebsites.net//" (Some "secret"))
     = [("API-SECRET", "secret")].
Proof.
  split; [reflexivity|].
  apply (proj2 (proj2 (proj2 (proj2
           (client_init_url_and_headers (fun s => s)
              "https://ren-cgm.azurewebsites.net//" (Some "secret")))))
           "secret" eq_refl).
  discriminate.
Defined.

(** *** White space, lines and tokens *)

Lemma prefix_app (w p q : string) :
  prefix w p = true -> prefix w (p ++ q) = true.
Proof.
  revert p. induction w as [|a w IH]; intros p; [intros _; apply prefix_nil|].
  destruct p as [|b p]; cbn [prefix append]; [discriminate|].
  destruct (ascii_dec a b); [apply IH | discriminate].
Qed.

Lemma wide_spaces_nonempty (w : string) :
  In w wide_spaces -> String.length w <> 0%nat.
Proof.
  assert (H : forallb (fun w => negb (Nat.eqb (String.length w) 0)) wide_spaces
              = true) by reflexivity.
  rewrite forallb_forall in H. intros Hw E. specialize (H w Hw).
  now rewrite E in H.
Qed.

Lemma space_width_prefix (p q : string) :
  space_width (p ++ q) = 0%nat -> space_width p = 0%nat.
Proof.
  destruct p as [|c p]; [reflexivity|].
  cbn [append]. unfold space_width.
  destruct (is_ascii_space c); [discriminate|].
  destruct (find (fun w => prefix w (String c (p ++ q))) wide_spaces)
    as [w|] eqn:F.
  - apply find_some in F as [Hw _]. intros E.
    now apply wide_spaces_nonempty in Hw.
  - intros _.
    destruct (find (fun w => prefix w (String c p)) wide_spaces)
      as [w|] eqn:F'; [|reflexivity].
    apply find_some in F' as [Hw Hp].
    apply (find_none _ _ F) in Hw.
    apply (prefix_app w (String c p) q) in Hp. cbn [append] in Hp.
    congruence.
Qed.

Lemma string_of_list_snoc (pre : list ascii) (c : ascii) (s : string) :
  string_of_list_ascii (pre ++ [c]) ++ s
  = string_of_list_ascii pre ++ String c s.
Proof. induction pre as [|x pre IH]; simpl; [reflexivity | now rewrite IH]. Qed.

Lemma narrow_before_snoc (pre : list ascii) (c : ascii) (s : string) :
  narrow_before pre (String c s) -> space_width (String c s) = 0%nat ->
  narrow_before (pre ++ [c]) s.
Proof.
  induction pre as [|x pre IH]; intros Hn Hw.
  - cbn [app narrow_before string_of_list_ascii append]. auto.
  - destruct Hn as [H1 H2].
    change ((x :: pre) ++ [c])%list with (x :: (pre ++ [c]))%list.
    cbn [narrow_before]. split; [|now apply IH].
    change (x :: (pre ++ [c]))%list with ((x :: pre) ++ [c])%list.
    now rewrite string_of_list_snoc.
Qed.

Lemma narrow_before_narrow (pre : list ascii) (s : string) :
  narrow_before pre s -> narrow (string_of_list_ascii pre).
Proof.
  induction pre as [|x pre IH]; [constructor|].
  intros [H1 H2]. cbn [string_of_list_ascii narrow].
  split; [|now apply IH].
  apply (space_width_prefix _ s). exact H1.
Qed.

Lemma split_marked_narrow (s : string) :
  forall (skip : nat) (cur : list ascii),
    (skip <> 0%nat -> cur = []) ->
    narrow_before (rev cur) s ->
    forall tok, In tok (split_marked cur (mark_spaces skip s)) -> narrow tok.
Proof.
  induction s as [|c s IH]; intros skip cur Hc Hn tok.
  - cbn [mark_spaces split_marked].
    destruct cur as [|x cur]; [intros []|]. intros [<-|[]].
    exact (narrow_before_narrow _ _ Hn).
  - cbn [mark_spaces]. destruct skip as [|k].
    + destruct (space_width (String c s)) as [|k] eqn:W.
      * cbn [split_marked]. apply IH; [congruence|].
        cbn [rev]. now apply narrow_before_snoc.
      * cbn [split_marked]. destruct cur as [|x cur].
        -- apply IH; [reflexivity | constructor].
        -- intros [<-|H].
           ++ exact (narrow_before_narrow _ _ Hn).
           ++ revert H. apply IH; [reflexivity | constructor].
    + rewrite (Hc ltac:(discriminate)). cbn [split_marked].
      apply IH; [reflexivity | constructor].
Qed.

Lemma narrow_marks (s : string) :
  narrow s ->
  mark_spaces 0 s = map (fun c => (c, false)) (list_ascii_of_string s).
Proof.
  induction s as [|c s IH]; [reflexivity|].
  intros [W N]. cbn [mark_spaces list_ascii_of_string map].
  rewrite W. now rewrite IH.
Qed.

Lemma drop_spaces_unmarked (l : list ascii) :
  drop_spaces (map (fun c => (c, false)) l) = map (fun c => (c, false)) l.
Proof. now destruct l. Qed.

Lemma narrow_strip (s : string) : narrow s -> strip s = s.
Proof.
  intros N. unfold strip, unmark. rewrite (narrow_marks s N).
  rewrite drop_spaces_unmarked, <- map_rev, drop_spaces_unmarked,
    <- map_rev, rev_involutive, map_map. cbn [fst].
  rewrite map_id. apply string_of_list_ascii_of_string.
Qed.

(** A token of [split] holds no white space: stripping it changes nothing. *)
Lemma token_strip (line tok : string) : In tok (split line) -> strip tok = tok.
Proof.
  unfold split. intros H. apply narrow_strip.
  apply (split_marked_narrow line 0 [] (fun _ => eq_refl) I tok H).
Qed.

Lemma unmark_app (l l' : list (ascii * bool)) :
  unmark (l ++ l') = unmark l ++ unmark l'.
Proof. unfold unmark. now rewrite map_app, string_of_list_app. Qed.

Lemma unmark_mark (s : string) (skip : nat) : unmark (mark_spaces skip s) = s.
Proof.
  revert skip. unfold unmark.
  induction s as [|c s IH]; intros skip; [reflexivity|].
  cbn [mark_spaces]. destruct skip as [|k].
  - destruct (space_width (String c s)); cbn [map fst string_of_list_ascii];
      now rewrite IH.
  - cbn [map fst string_of_list_ascii]. now rewrite IH.
Qed.

Lemma drop_spaces_mark (s : string) (skip : nat) :
  exists s', drop_spaces (mark_spaces skip s) = mark_spaces 0 s'
             /\ (s' = "" \/ space_width s' = 0%nat).
Proof.
  revert skip. induction s as [|c s IH]; intros skip.
  - exists "". split; [reflexivity | now left].
  - cbn [mark_spaces]. destruct skip as [|k].
    + destruct (space_width (String c s)) as [|k] eqn:W.
      * exists (String c s). split; [|now right].
        cbn [drop_spaces mark_spaces]. now rewrite W.
      * cbn [drop_spaces]. apply IH.
    + cbn [drop_spaces]. apply IH.
Qed.

Lemma drop_spaces_suffix (l : list (ascii * bool)) :
  exists l1, l = (l1 ++ drop_spaces l)%list.
Proof.
  induction l as [|[c [|]] l (l1 & IH)].
  - exists []. reflexivity.
  - exists ((c, true) :: l1). cbn [drop_spaces app]. now f_equal.
  - exists []. reflexivity.
Qed.

Lemma rstrip_prefix (l : list (ascii * bool)) :
  exists l2, l = (rev (drop_spaces (rev l)) ++ l2)%list.
Proof.
  destruct (drop_spaces_suffix (rev l)) as (l1 & H).
  exists (rev l1).
  rewrite <- (rev_involutive l) at 1. rewrite H at 1.
  now rewrite rev_app_distr.
Qed.

(** What [strip] returns is the head of a text that starts with no
    white-space character. *)
Lemma strip_is_prefix (s : string) :
  exists s' q, s' = strip s ++ q /\ (s' = "" \/ space_width s' = 0%nat).
Proof.
  destruct (drop_spaces_mark s 0) as (s' & Hd & Hw).
  destruct (rstrip_prefix (mark_spaces 0 s')) as (l2 & Hl).
  exists s', (unmark l2). split; [|exact Hw].
  unfold strip. rewrite Hd.
  rewrite <- (unmark_mark s' 0) at 1. rewrite Hl at 1. apply unmark_app.
Qed.

Lemma append_nil_r (s : string) : s ++ "" = s.
Proof. induction s as [|c s IH]; simpl; [reflexivity | now rewrite IH]. Qed.

Lemma append_assoc (a b c : string) : (a ++ b) ++ c = a ++ (b ++ c).
Proof. induction a as [|x a IH]; simpl; [reflexivity | now rewrite IH]. Qed.

Lemma split_on_from_first (sep : ascii) (s : string) (cur : list ascii) :
  exists p q rest,
    split_on_from sep cur s = (string_of_list_ascii (rev cur) ++ p) :: rest
    /\ s = p ++ q.
Proof.
  revert cur. induction s as [|c s IH]; intros cur.
  - exists "", "", []. cbn [split_on_from]. now rewrite append_nil_r.
  - cbn [split_on_from]. destruct (Ascii.eqb c sep).
    + exists "", (String c s), (split_on_from sep [] s).
      now rewrite append_nil_r.
    + destruct (IH (c :: cur)) as (p & q & rest & E & Hs).
      exists (String c p), q, rest. split; [|cbn [append]; now f_equal].
      rewrite E. cbn [rev]. now rewrite string_of_list_snoc.
Qed.

Lemma drop_spaces_snoc (l : list (ascii * bool)) (c : ascii) :
  exists l', drop_spaces (l ++ [(c, false)]) = (l' ++ [(c, false)])%list.
Proof.
  induction l as [|[x [|]] l (l' & IH)].
  - exists []. reflexivity.
  - exists l'. exact IH.
  - exists ((x, false) :: l). reflexivity.
Qed.

Lemma strip_keeps_start (c : ascii) (s : string) :
  space_width (String c s) = 0%nat -> exists s', strip (String c s) = String c s'.
Proof.
  intros W. unfold strip. cbn [mark_spaces]. rewrite W.
  cbn [drop_spaces rev].
  destruct (drop_spaces_snoc (rev (mark_spaces 0 s)) c) as (l' & ->).
  rewrite rev_app_distr. cbn [rev app]. unfold unmark.
  cbn [map fst string_of_list_ascii]. eauto.
Qed.

Lemma narrow_start_not_newline (c : ascii) (s : string) :
  space_width (String c s) = 0%nat -> Ascii.eqb c (ascii_of_nat 10) = false.
Proof.
  unfold space_width. destruct (Ascii.eqb c (ascii_of_nat 10)) eqn:E;
    [|reflexivity].
  apply Ascii.eqb_eq in E. subst c. discriminate.
Qed.

(** The first line of a stripped text that is not empty is not blank. *)
Lemma first_line_nonblank (notes line0 : string) (rest : list string) :
  split_lines (strip notes) = line0 :: rest ->
  strip notes <> "" ->
  nonempty (strip line0) = true.
Proof.
  intros Hl Hn.
  destruct (strip_is_prefix notes) as (s' & q & Hs & Hw).
  destruct (strip notes) as [|c t] eqn:Et; [congruence|].
  cbn [append] in Hs. subst s'.
  destruct Hw as [Hw|Hw]; [discriminate|].
  pose proof (narrow_start_not_newline _ _ Hw) as Hc.
  unfold split_lines in Hl. cbn [split_on_from] in Hl. rewrite Hc in Hl.
  destruct (split_on_from_first (ascii_of_nat 10) t [c])
    as (p & q' & rest' & E & Ht).
  rewrite E in Hl. injection Hl as <- _.
  cbn [rev app string_of_list_ascii append].
  assert (W : space_width (String c p) = 0%nat).
  { apply (space_width_prefix (String c p) (q' ++ q)).
    cbn [append]. rewrite <- append_assoc, <- Ht. exact Hw. }
  destruct (strip_keeps_start c p W) as (s'' & ->). reflexivity.
Qed.

Lemma split_lines_nonempty (s : string) : split_lines s <> [].
Proof.
  unfold split_lines.
  destruct (split_on_from_first (ascii_of_nat 10) s [])
    as (p & q & rest & E & _).
  rewrite E. discriminate.
Qed.

(** The lines [app.py] keeps are the first line of the web module,
    stripped, and the lines the web module keeps after it. *)
Lemma note_lines_of_web (notes line0 : string) (rest : list string) :
  split_lines (strip notes) = line0 :: rest ->
  strip notes <> "" ->
  App.note_lines notes = strip line0 :: Web.kept rest.
Proof.
  intros Hl Hn. unfold App.note_lines. rewrite Hl. cbn [map filter].
  now rewrite (first_line_nonblank notes line0 rest Hl Hn).
Qed.

(** *** The two parsers agree *)

Lemma web_parse_blank {RT : Runtime} (notes : string) :
  strip notes = "" -> Web.parse_notes notes = web_only_foods [].
Proof.
  intros Hs. unfold Web.parse_notes. rewrite Hs.
  now destruct (negb (nonempty notes)).
Qed.

Lemma app_parse_blank {RT : Runtime} (notes : string) :
  strip notes = "" -> App.parse_notes notes = App.empty_note.
Proof.
  intros Hs. unfold App.parse_notes, App.note_lines. rewrite Hs.
  now destruct (negb (nonempty notes)).
Qed.

Lemma strip_empty_of_empty (notes : string) :
  nonempty notes = false -> strip notes = "".
Proof. destruct notes; [reflexivity | discriminate]. Qed.

Lemma parse_notes_agree_on {RT : Runtime} (notes : string) :
  (forall first rest,
     App.note_lines notes = first :: rest ->
     strip_cir_web first = strip_cir_app first) ->
  as_app_note (Web.parse_notes notes) = App.parse_notes notes.
Proof.
  intros Hcir.
  destruct (string_dec (strip notes) "") as [Hs|Hs].
  { now rewrite (web_parse_blank notes Hs), (app_parse_blank notes Hs). }
  destruct (nonempty notes) eqn:Hn;
    [|now rewrite (strip_empty_of_empty notes Hn) in Hs].
  destruct (split_lines (strip notes)) as [|line0 rest] eqn:Hl;
    [now apply split_lines_nonempty in Hl|].
  pose proof (note_lines_of_web notes line0 rest Hl Hs) as Ha.
  pose proof (first_line_nonblank notes line0 rest Hl Hs) as Hf.
  specialize (Hcir _ _ Ha).
  unfold Web.parse_notes, App.parse_notes. rewrite Hn, Hl, Ha.
  simpl negb. cbv iota zeta.
  destruct (startswith (strip line0) "Tore "
            || startswith (strip line0) "トレ "); [reflexivity|].
  destruct (String.eqb (upper (strip line0)) "B"); [reflexivity|].
  destruct (String.eqb (upper (strip line0)) "N"
            || String.eqb (upper (strip line0)) "F"); [reflexivity|].
  change (Web.test_line (strip line0))
    with (strip (strip_cir_web (strip line0))).
  change (App.test_line (strip line0))
    with (strip (strip_cir_app (strip line0))).
  rewrite Hcir.
  destruct (split (strip (strip_cir_app (strip line0))))
    as [|tok [|second more]] eqn:Hp.
  - unfold Web.kept. cbn [map filter]. now rewrite Hf.
  - destruct (float_of_str tok); [reflexivity|].
    unfold Web.kept. cbn [map filter]. now rewrite Hf.
  - destruct (float_of_str tok).
    + assert (Hsec : strip second = second).
      { apply (token_strip (strip (strip_cir_app (strip line0)))).
        rewrite Hp. right. now left. }
      rewrite Hsec. reflexivity.
    + unfold Web.kept. cbn [map filter]. now rewrite Hf.
Qed.

(** The two [parse_notes] return the same fields for every note in which
    the third spelling the web module removes, [Cir], does not matter: the
    first line, after [cir] and [CIR] are removed, is left as it is by the
    removal of [Cir]. In particular the web module's different way of
    cutting lines and its extra [strip] of the second token change
    nothing. *)
Theorem parse_notes_agree (RT : Runtime) (notes : string) :
  (forall first rest,
     App.note_lines notes = first :: rest ->
     strip_cir_web first = strip_cir_app first) ->
  as_app_note (Web.parse_notes notes) = App.parse_notes notes.
Proof. apply parse_notes_agree_on. Qed.

(** The two parsers on a ratio note with a blank line, and on a note where
    [Cir] matters. *)
Lemma parse_notes_agree_witness :
  as_app_note (Web.parse_notes (" cir 250 3f " ++ nl ++ nl ++ "rice"))
  = App.parse_notes (RT := Py) (" cir 250 3f " ++ nl ++ nl ++ "rice")
  /\ App.cir (App.parse_notes (RT := Py) "Cir 250 3f") = None
  /\ web_cir (Web.parse_notes (RT := Py) "Cir 250 3f") = Some 250%float.
Proof.
  split; [|split; reflexivity].
  apply (parse_notes_agree Py).
  intros first rest E.
  change (App.note_lines (" cir 250 3f " ++ nl ++ nl ++ "rice"))
    with ["cir 250 3f"; "rice"] in E.
  injection E as <- _. reflexivity.
Defined.

(** *** The two implementations compute the same statistics *)










